(** * view_paper: the paper-assessment view of the SLR database

    A shallow embedding of [src/view_paper.py]: the joined paper table
    built by [load_paper_details], the boolean-mask filters of
    [apply_filters], the label formatting / label-to-row selection
    done inside [papers_view], and the flow of the page itself (early
    exits, info line, status distribution).  The rendering of one
    paper and the CSV export are not modelled.

    Conventions.
    - A Python [str] is a [string]; [len] is [String.length].
    - A nullable column (SQL NULL, pandas NaN/None) is an [option].
    - A DataFrame value is the list of its rows, in row order.
    - A raised Python exception is the left injection of a sum. *)

From Stdlib Require Import ZArith String Ascii.
From stdpp Require Import base option list strings sorting gmap.

Local Open Scope Z_scope.

(** ** Python string primitives used by the view *)

(** [s.startswith(p)]. *)
Fixpoint startswith (s p : string) {struct p} : bool :=
  match p, s with
  | EmptyString, _ => true
  | String a p', String b s' => if Ascii.eqb a b then startswith s' p' else false
  | String _ _, EmptyString => false
  end.

(** [s[:n]]. *)
Fixpoint slice_to (n : nat) (s : string) : string :=
  match n, s with
  | S n', String c s' => String c (slice_to n' s')
  | _, _ => EmptyString
  end.

(** [s[n:]]. *)
Fixpoint slice_from (n : nat) (s : string) : string :=
  match n, s with
  | S n', String _ s' => slice_from n' s'
  | _, _ => s
  end.

(** [s.partition(sep)] for a non-empty [sep]: the text before and after
    the leftmost occurrence of [sep], or [None] when [sep] does not
    occur.  Both [split] calls of the view are read off this scan. *)
Fixpoint partition (sep s : string) : option (string * string) :=
  if startswith s sep then Some (EmptyString, slice_from (String.length sep) s)
  else match s with
       | EmptyString => None
       | String c s' =>
           match partition sep s' with
           | Some (before, after) => Some (String c before, after)
           | None => None
           end
       end.

(** [s.split(sep, 1)]: at most one cut, so one or two pieces. *)
Definition split1 (sep s : string) : list string :=
  match partition sep s with
  | Some (before, after) => [before; after]
  | None => [s]
  end.

(** [s.split(sep)[0]]: the first piece of an unbounded split, which is
    the text before the leftmost [sep], or all of [s] without one. *)
Definition split_head (sep s : string) : string :=
  match partition sep s with
  | Some (before, _) => before
  | None => s
  end.

(** ** Data model *)

(** One row of the [papers] relation. *)
Record Paper := {
  p_id : Z;
  p_doi : option string;
  p_title : string;
  p_authors : option string;
  p_publication_year : option Z;
  p_venue : option string;
  p_volume : option string;
  p_publication_type : option string;
  p_publication_source : option string;
  p_processed : option bool;
  p_file_path : option string
}.

(** One row of the [paper_assessments] relation.  The two flags are
    BOOLEAN columns, so a cell is true, false or NULL.  Timestamps are
    TEXT and compare bytewise, as SQLite's default collation does. *)
Record Assessment := {
  a_paper_id : option Z;
  a_is_neurosymbolic : option bool;
  a_is_development : option bool;
  a_paper_type : option string;
  a_summary : option string;
  a_takeaways : option string;
  a_assessment_date : option string
}.

(** One row of the joined frame returned by [load_paper_details]; the
    columns are those of its SELECT list, in order. *)
Record Row := {
  id : Z;
  doi : option string;
  title : string;
  authors : option string;
  publication_year : option Z;
  venue : option string;
  volume : option string;
  publication_type : option string;
  publication_source : option string;
  processed : option bool;
  file_path : option string;
  is_neurosymbolic : option bool;
  is_development : option bool;
  paper_type : option string;
  summary : option string;
  takeaways : option string;
  assessment_date : option string;
  assessment_status : string
}.

#[global] Instance Row_eq_dec : EqDecision Row.
Proof. solve_decision. Defined.

Abbreviation Table := (list Row).

(** ** Label formatting and selection ([papers_view]) *)

(** The [title] local of the nested [format_paper_title].  Python
    parses [a + b if c else d] as [(a + b) if c else d]. *)
Definition shown_title (row : Row) : string :=
  if (100 <? String.length (title row))%nat
  then slice_to 100 (title row) +:+ "..."
  else title row.

Definition format_paper_title (row : Row) : string :=
  let status := "[" +:+ assessment_status row +:+ "] " in
  let title := shown_title row in
  status +:+ title.

(** [paper_options]: one label per row of the filtered frame. *)
Definition paper_options (filtered_df : Table) : list string :=
  format_paper_title <$> filtered_df.

(** The exception the selection code can raise, and the name of its
    Python class. *)
Inductive exn := IndexError.

Definition exn_class (e : exn) : string :=
  match e with IndexError => "IndexError" end.

(** [selected_paper_title.split('] ', 1)[1].split('...')[0]]; the
    subscript [[1]] raises [IndexError] when there is no ["] "]. *)
Definition original_title (selected_paper_title : string) : exn + string :=
  match split1 "] " selected_paper_title !! 1%nat with
  | Some rest => inr (split_head "..." rest)
  | None => inl IndexError
  end.

(** [filtered_df[filtered_df['title'].str.startswith(t)].iloc[0]];
    [.iloc[0]] raises [IndexError] on an empty frame. *)
Definition first_startswith (filtered_df : Table) (t : string) : exn + Row :=
  match filter (λ r, startswith (title r) t) filtered_df !! 0%nat with
  | Some paper => inr paper
  | None => inl IndexError
  end.

(** Lines 218-219: the row handed to [display_paper_details]. *)
Definition select_paper (filtered_df : Table) (selected_paper_title : string)
    : exn + Row :=
  match original_title selected_paper_title with
  | inr t => first_startswith filtered_df t
  | inl e => inl e
  end.

(** Line 216 guards the selection with [if selected_paper_title:], so
    an empty label selects nothing and raises nothing. *)
Definition papers_view_paper (filtered_df : Table) (selected_paper_title : string)
    : option (exn + Row) :=
  if decide (selected_paper_title = EmptyString) then None
  else Some (select_paper filtered_df selected_paper_title).


(** ** The filter engine ([apply_filters]) *)

(** The [filters] dict, restricted to the four keys the code reads.
    Each field is what [filters.get(key)] returns: [None] for an absent
    key, otherwise the value of the documented type. *)
Record Filters := {
  get_years : option (list Z);
  get_paper_type : option string;
  get_focus : option string;
  get_development : option string
}.

(** The empty dict [{}]. *)
Definition no_filters : Filters :=
  {| get_years := None; get_paper_type := None;
     get_focus := None; get_development := None |}.

(** Truth value of a dict: it has at least one key. *)
Definition dict_truthy (filters : Filters) : bool :=
  match filters with
  | {| get_years := None; get_paper_type := None;
       get_focus := None; get_development := None |} => false
  | _ => true
  end.

(** Truth value of a [str]: non-empty. *)
Definition str_truthy (s : string) : bool := negb (String.eqb s EmptyString).

(** Column comparisons of pandas: a missing cell is equal to nothing
    and a member of nothing. *)
Definition isin {A} `{EqDecision A} (cell : option A) (values : list A) : bool :=
  match cell with
  | Some x => bool_decide (x ∈ values)
  | None => false
  end.

Definition cell_eq {A} `{EqDecision A} (cell : option A) (v : A) : bool :=
  match cell with
  | Some x => bool_decide (x = v)
  | None => false
  end.

Definition notna {A} (cell : option A) : bool :=
  match cell with Some _ => true | None => false end.

Definition isna {A} (cell : option A) : bool := negb (notna cell).

(** The four [if] blocks.  Each yields the boolean mask it indexes
    with, or [None] when its guard is false and the frame is kept. *)
Definition years_mask (filters : Filters) : option (Row → bool) :=
  match get_years filters with
  | Some (y :: ys) => Some (λ r, isin (publication_year r) (y :: ys))
  | _ => None
  end.

Definition paper_type_mask (filters : Filters) : option (Row → bool) :=
  match get_paper_type filters with
  | Some v =>
      if str_truthy v && negb (String.eqb v "All")
      then Some (λ r, cell_eq (paper_type r) v && notna (paper_type r))
      else None
  | None => None
  end.

Definition focus_mask (filters : Filters) : option (Row → bool) :=
  match get_focus filters with
  | Some v =>
      if str_truthy v && negb (String.eqb v "All")
      then if String.eqb v "Neurosymbolic"
           then Some (λ r, String.eqb (assessment_status r) "Neurosymbolic")
           else Some (λ r, bool_decide (assessment_status r ∈ ["Unassessed"; "Other"]))
      else None
  | None => None
  end.

Definition development_mask (filters : Filters) : option (Row → bool) :=
  match get_development filters with
  | Some v =>
      if str_truthy v && negb (String.eqb v "All")
      then if String.eqb v "Yes"
           then Some (λ r, cell_eq (is_development r) true)
           else Some (λ r, cell_eq (is_development r) false || isna (is_development r))
      else None
  | None => None
  end.

(** [df[mask]] when the block runs, [df] otherwise. *)
Definition index_if (mask : option (Row → bool)) (df : Table) : Table :=
  match mask with
  | Some m => filter (λ r, m r) df
  | None => df
  end.

Definition apply_filters (df : Table) (filters : Filters) : Table :=
  let filtered_df := df (* df.copy() *) in
  let filtered_df := index_if (years_mask filters) filtered_df in
  let filtered_df := index_if (paper_type_mask filters) filtered_df in
  let filtered_df := index_if (focus_mask filters) filtered_df in
  let filtered_df := index_if (development_mask filters) filtered_df in
  filtered_df.

(** Lines 176-179 of [papers_view]: [None] and [{}] are both falsy. *)
Definition papers_view_filtered (papers_df : Table) (filters : option Filters)
    : Table :=
  match filters with
  | Some f => if dict_truthy f then apply_filters papers_df f else papers_df
  | None => papers_df
  end.

(** ** DataFrames as objects

    [apply_filters] receives a reference to the caller's frame.  The
    store maps object identities to frame contents; [df.copy()] and
    [df[mask]] both allocate a new frame and write to nothing else. *)
Abbreviation store := (gmap nat Table).

(** A computation over the store; [None] is a dangling reference. *)
Definition Py (A : Type) : Type := store → option (A * store).

Definition py_ret {A} (a : A) : Py A := λ σ, Some (a, σ).

Definition py_bind {A B} (m : Py A) (k : A → Py B) : Py B :=
  λ σ, match m σ with
       | Some (a, σ') => k a σ'
       | None => None
       end.

Notation "x ←ₚ m ; k" := (py_bind m (λ x, k))
  (at level 20, m at level 100, k at level 200, only parsing, right associativity).

Definition new_frame (t : Table) : Py nat :=
  λ σ, let l := fresh (dom σ) in Some (l, <[l := t]> σ).

Definition read_frame (df : nat) : Py Table :=
  λ σ, match σ !! df with
       | Some t => Some (t, σ)
       | None => None
       end.

(** [df.copy()]. *)
Definition frame_copy (df : nat) : Py nat :=
  t ←ₚ read_frame df; new_frame t.

(** [df[mask]] inside an [if] block whose guard may be false. *)
Definition frame_index_if (mask : option (Row → bool)) (df : nat) : Py nat :=
  match mask with
  | Some m => t ←ₚ read_frame df; new_frame (filter (λ r, m r) t)
  | None => py_ret df
  end.

(** [apply_filters] on references: the local [filtered_df] is rebound
    to a new object by every block that runs. *)
Definition apply_filters_obj (df : nat) (filters : Filters) : Py nat :=
  filtered_df ←ₚ frame_copy df;
  filtered_df ←ₚ frame_index_if (years_mask filters) filtered_df;
  filtered_df ←ₚ frame_index_if (paper_type_mask filters) filtered_df;
  filtered_df ←ₚ frame_index_if (focus_mask filters) filtered_df;
  filtered_df ←ₚ frame_index_if (development_mask filters) filtered_df;
  py_ret filtered_df.

(** ** The loader ([load_paper_details]) *)

Record Database := {
  papers : list Paper;
  paper_assessments : list Assessment
}.

(** The join condition [p.id = a.paper_id]; a NULL [paper_id] is equal
    to no identifier. *)
Definition join_on (p : Paper) (a : Assessment) : bool :=
  cell_eq (a_paper_id a) (p_id p).

(** [papers p LEFT JOIN paper_assessments a ON ...]: every match of a
    paper, or the paper once with an all-NULL right side. *)
Definition left_join (ps : list Paper) (asms : list Assessment)
    : list (Paper * option Assessment) :=
  p ← ps;
  match filter (λ a, join_on p a) asms with
  | [] => [(p, None)]
  | matches => (λ a, (p, Some a)) <$> matches
  end.

(** The CASE expression over the joined columns. *)
Definition case_status (a_paper_id : option Z) (a_is_neurosymbolic : option bool)
    : string :=
  if isna a_paper_id then "Unassessed"
  else if cell_eq a_is_neurosymbolic true then "Neurosymbolic"
  else "Other".

(** The SELECT list. *)
Definition select_row (pa : Paper * option Assessment) : Row :=
  let (p, a) := pa in
  {| id := p_id p;
     doi := p_doi p;
     title := p_title p;
     authors := p_authors p;
     publication_year := p_publication_year p;
     venue := p_venue p;
     volume := p_volume p;
     publication_type := p_publication_type p;
     publication_source := p_publication_source p;
     processed := p_processed p;
     file_path := p_file_path p;
     is_neurosymbolic := a ≫= a_is_neurosymbolic;
     is_development := a ≫= a_is_development;
     paper_type := a ≫= a_paper_type;
     summary := a ≫= a_summary;
     takeaways := a ≫= a_takeaways;
     assessment_date := a ≫= a_assessment_date;
     assessment_status :=
       case_status (a ≫= a_paper_id) (a ≫= a_is_neurosymbolic) |}.

(** SQLite orders NULL below every value, so a descending key puts the
    NULLs last. *)
Definition sql_compare {A} (cmp : A → A → comparison) (x y : option A)
    : comparison :=
  match x, y with
  | None, None => Eq
  | None, Some _ => Lt
  | Some _, None => Gt
  | Some a, Some b => cmp a b
  end.

(** [ORDER BY a.assessment_date DESC, p.publication_year DESC]:
    whether [r1] may come before [r2]. *)
Definition order_by_leb (r1 r2 : Row) : bool :=
  match sql_compare String.compare (assessment_date r2) (assessment_date r1) with
  | Lt => true
  | Gt => false
  | Eq =>
      match sql_compare Z.compare (publication_year r2) (publication_year r1) with
      | Gt => false
      | _ => true
      end
  end.

Definition load_paper_details (db : Database) : Table :=
  merge_sort (λ r1 r2, order_by_leb r1 r2)
    (select_row <$> left_join (papers db) (paper_assessments db)).

(** ** Vocabulary of the statements *)

(** The three literals of the CASE expression. *)
Definition statuses : list string := ["Unassessed"; "Neurosymbolic"; "Other"].


(** The title prefix that the selection recovers from a row's own
    label: the shown title up to its first ["..."]. *)
Definition title_prefix (row : Row) : string :=
  split_head "..." (shown_title row).

(** Rows have pairwise distinct first-100-character title prefixes. *)
Definition distinct_prefixes (df : Table) : Prop :=
  NoDup ((λ r, slice_to 100 (title r)) <$> df).

(** A row with the given title and status, every other cell missing. *)
Definition titled (i : Z) (t : string) (st : string) : Row :=
  {| id := i; doi := None; title := t; authors := None;
     publication_year := None; venue := None; volume := None;
     publication_type := None; publication_source := None;
     processed := None; file_path := None; is_neurosymbolic := None;
     is_development := None; paper_type := None; summary := None;
     takeaways := None; assessment_date := None;
     assessment_status := st |}.

(** One entry [key: value] of a filter dict. *)
Inductive setting :=
  | Years (ys : list Z)
  | PaperType (v : string)
  | Focus (v : string)
  | Development (v : string).

(** The filter dimension an entry belongs to: its key. *)
Definition dimension (d : setting) : string :=
  match d with
  | Years _ => "years"
  | PaperType _ => "paper_type"
  | Focus _ => "focus"
  | Development _ => "development"
  end.

(** [filters[key] = value]. *)
Definition with_option (d : setting) (filters : Filters) : Filters :=
  match d with
  | Years ys =>
      {| get_years := Some ys; get_paper_type := get_paper_type filters;
         get_focus := get_focus filters;
         get_development := get_development filters |}
  | PaperType v =>
      {| get_years := get_years filters; get_paper_type := Some v;
         get_focus := get_focus filters;
         get_development := get_development filters |}
  | Focus v =>
      {| get_years := get_years filters;
         get_paper_type := get_paper_type filters;
         get_focus := Some v;
         get_development := get_development filters |}
  | Development v =>
      {| get_years := get_years filters;
         get_paper_type := get_paper_type filters;
         get_focus := get_focus filters;
         get_development := Some v |}
  end.

(** The one-entry dict [{d}] and the two-entry dict [{d1, d2}]. *)
Definition only (d : setting) : Filters := with_option d no_filters.

Definition both (d1 d2 : setting) : Filters := with_option d2 (only d1).

(** A row passes a block when the block is skipped or its mask holds. *)
Definition passes (mask : option (Row → bool)) (r : Row) : bool :=
  match mask with
  | Some m => m r
  | None => true
  end.

(** A row passes all four blocks. *)
Definition keeps (filters : Filters) (r : Row) : bool :=
  passes (years_mask filters) r
  && passes (paper_type_mask filters) r
  && passes (focus_mask filters) r
  && passes (development_mask filters) r.

(** [s * n]. *)
Fixpoint str_repeat (s : string) (n : nat) : string :=
  match n with
  | O => EmptyString
  | S n' => s +:+ str_repeat s n'
  end.

(** ** Sample tables *)

(** Two short titles, one a prefix of the other. *)
Definition nested_titles : Table :=
  [titled 1 "Neural Logic Machines" "Other";
   titled 2 "Neural Logic" "Neurosymbolic"].

(** Two short titles, the second with an ellipsis of its own. *)
Definition dotted_titles : Table :=
  [titled 1 "Learning to reason" "Unassessed";
   titled 2 "Learning... and reasoning" "Other"].



(** A row as the filters see it: year, paper type, development flag
    and status, every other cell missing. *)
Definition assessed (i : Z) (y : option Z) (ty : option string)
    (dev : option bool) (st : string) : Row :=
  {| id := i; doi := None; title := "Untitled"; authors := None;
     publication_year := y; venue := None; volume := None;
     publication_type := None; publication_source := None;
     processed := None; file_path := None; is_neurosymbolic := None;
     is_development := dev; paper_type := ty; summary := None;
     takeaways := None; assessment_date := None;
     assessment_status := st |}.

(** Three papers published in 2020, 2021 and 2021. *)
Definition three_papers : Table :=
  [assessed 1 (Some 2020) (Some "Survey") (Some true) "Neurosymbolic";
   assessed 2 (Some 2021) (Some "Method") (Some false) "Other";
   assessed 3 (Some 2021) None None "Unassessed"].

(** A paper and an assessment with the cells the loader looks at. *)
Definition paper (i : Z) (t : string) (y : option Z) : Paper :=
  {| p_id := i; p_doi := None; p_title := t; p_authors := None;
     p_publication_year := y; p_venue := None; p_volume := None;
     p_publication_type := None; p_publication_source := None;
     p_processed := None; p_file_path := None |}.

Definition assessment (i : option Z) (ns dev : option bool)
    (date : option string) : Assessment :=
  {| a_paper_id := i; a_is_neurosymbolic := ns; a_is_development := dev;
     a_paper_type := None; a_summary := None; a_takeaways := None;
     a_assessment_date := date |}.

(** A small database: paper 1 assessed as neurosymbolic, paper 2
    assessed with the flag left NULL, paper 3 not assessed, and one
    assessment that points at no paper. *)
Definition sample_db : Database :=
  {| papers :=
       [paper 1 "Neural Logic Machines" (Some 2019);
        paper 2 "Learning to reason" (Some 2021);
        paper 3 "Answer set programming" None];
     paper_assessments :=
       [assessment (Some 1) (Some true) (Some true) (Some "2024-01-01");
        assessment (Some 2) None (Some false) (Some "2024-02-01");
        assessment None (Some true) None None] |}.

(** A title longer than 100 characters and a short one. *)
Definition mixed_titles : Table :=
  [titled 1 (str_repeat "ab" 60) "Other";
   titled 2 "Neural theorem proving" "Unassessed"].



(** ** The page ([papers_view]) *)

(** [series.value_counts()]: each distinct value with its number of
    occurrences, most frequent first.  pandas leaves the order of
    values with equal counts open; nothing below depends on it. *)
Definition value_counts (values : list string) : list (string * nat) :=
  merge_sort (λ a b : string * nat, (b.2 <=? a.2)%nat)
    ((λ v, (v, length (filter (λ x, x = v) values))) <$> remove_dups values).

(** What [papers_view] puts on the page, widget calls of pure layout
    aside: the early exits, the counts of the info line, the options
    of the select box, the status distribution, and what the selection
    block does ([None] if its guard skips it, a raised exception, or
    the row passed to [display_paper_details]). *)
Inductive page :=
  | DatabaseError (e : string)
  | NoPapersFound
  | NoPapersMatch (info : option (nat * nat))
  | Listing (info : option (nat * nat)) (options : list string)
      (status_counts : list (string * nat)) (shown : option (exn + Row)).

(** Truth value of the [filters] argument: [None] and [{}] are falsy. *)
Definition filters_truthy (filters : option Filters) : bool :=
  match filters with
  | Some f => dict_truthy f
  | None => false
  end.

(** [papers_view(filters)].  [db] is what the query meets: the two
    relations, or the [sqlite3.OperationalError] it raises.  [choice]
    is the index the user picks in the select box, 0 when untouched. *)
Definition papers_view (db : string + Database) (filters : option Filters)
    (choice : nat) : page :=
  match db with
  | inl e => DatabaseError e
  | inr db =>
      let papers_df := load_paper_details db in
      if bool_decide (papers_df = []) then NoPapersFound
      else
        let filtered_df := papers_view_filtered papers_df filters in
        let info :=
          if filters_truthy filters
          then Some (length filtered_df, length papers_df)
          else None in
        if bool_decide (filtered_df = []) then NoPapersMatch info
        else
          let paper_options := paper_options filtered_df in
          let selected_paper_title := paper_options !! choice in
          let status_counts :=
            value_counts (assessment_status <$> filtered_df) in
          Listing info paper_options status_counts
            (match selected_paper_title with
             | Some label => papers_view_paper filtered_df label
             | None => None
             end)
  end.

(** The filter state of an untouched sidebar: every choice on ["All"],
    no year ticked. *)
Definition all_filters : Filters :=
  {| get_years := Some []; get_paper_type := Some "All";
     get_focus := Some "All"; get_development := Some "All" |}.

(** A three-way comparison that is a total order. *)
Record cmp_order {A} (cmp : A → A → comparison) : Prop := {
  cmp_antisym x y : cmp x y = CompOpp (cmp y x);
  cmp_eq x y : cmp x y = Eq → x = y;
  cmp_lt_trans x y z : cmp x y = Lt → cmp y z = Lt → cmp x z = Lt
}.

(** The assessments that the join condition pairs with a paper. *)
Definition assessments_of (db : Database) (p : Paper) : list Assessment :=
  filter (λ a, a_paper_id a = Some (p_id p)) (paper_assessments db).

(** ** String facts *)

(** Membership in a list that is written out. *)
Ltac in_list :=
  repeat first [apply list_elem_of_here | apply list_elem_of_further].

Lemma startswith_nil (s : string) : startswith s EmptyString = true.
Proof. by destruct s. Qed.

Lemma startswith_app (p s : string) : startswith (p +:+ s) p = true.
Proof.
  induction p as [|c p IH]; simpl; [done|].
  by rewrite Ascii.eqb_refl.
Qed.

Lemma startswith_refl (s : string) : startswith s s = true.
Proof. induction s as [|c s IH]; simpl; [done|]. by rewrite Ascii.eqb_refl. Qed.

Lemma startswith_trans (s p q : string) :
  startswith s p = true → startswith p q = true → startswith s q = true.
Proof.
  revert s p. induction q as [|c q IH]; intros s p Hsp Hpq; [apply startswith_nil|].
  destruct p as [|b p]; [done|]. destruct s as [|a s]; [done|].
  simpl in *.
  destruct (Ascii.eqb_spec c b) as [->|]; [|done].
  destruct (Ascii.eqb_spec b a) as [->|]; [|done].
  eauto.
Qed.

Lemma startswith_slice_to (n : nat) (s : string) : startswith s (slice_to n s) = true.
Proof.
  revert s. induction n as [|n IH]; intros [|c s]; simpl; try done.
  by rewrite Ascii.eqb_refl.
Qed.

Lemma startswith_app_l (s p q : string) :
  startswith p q = true → startswith (p +:+ s) q = true.
Proof. intros. eapply startswith_trans; [apply startswith_app|done]. Qed.

Lemma startswith_length (s p : string) :
  startswith s p = true → (String.length p ≤ String.length s)%nat.
Proof.
  revert s. induction p as [|c p IH]; intros [|b s]; simpl; try done; try lia.
  destruct (Ascii.eqb c b); [|done]. intros ?%IH. lia.
Qed.

Lemma startswith_same_length (s p : string) :
  startswith s p = true → String.length s = String.length p → s = p.
Proof.
  revert s. induction p as [|c p IH]; intros [|b s]; simpl; try done.
  destruct (Ascii.eqb_spec c b) as [->|]; [|done].
  intros ? [= ?]. f_equal. by apply IH.
Qed.


Lemma length_slice_to (n : nat) (s : string) :
  (n ≤ String.length s)%nat → String.length (slice_to n s) = n.
Proof.
  revert s. induction n as [|n IH]; intros [|c s]; simpl; try done; try lia.
  intros ?. f_equal. apply IH. lia.
Qed.

(** The text before the leftmost separator is a prefix of the text. *)
Lemma partition_before (sep s before after : string) :
  partition sep s = Some (before, after) → startswith s before = true.
Proof.
  revert before. induction s as [|c s IH]; intros before; cbn [partition].
  - destruct (startswith EmptyString sep); [|done]. by intros [= <- _].
  - destruct (startswith (String c s) sep); [by intros [= <- _]|].
    destruct (partition sep s) as [[b a]|]; [|done].
    intros [= <- <-]. simpl. rewrite Ascii.eqb_refl. by apply IH.
Qed.

Lemma partition_here (sep s : string) :
  startswith s sep = true →
  partition sep s = Some (EmptyString, slice_from (String.length sep) s).
Proof. intros H. destruct s; cbn [partition]; by rewrite H. Qed.

(** A separator known to sit after [a] is found at or before that
    position, so the text before the leftmost one is a prefix of [a]. *)
Lemma partition_app (sep a b : string) :
  ∃ before after,
    partition sep (a +:+ sep +:+ b) = Some (before, after)
    ∧ startswith a before = true.
Proof.
  induction a as [|c a (before & after & Hp & Hpre)].
  - exists EmptyString, (slice_from (String.length sep) (sep +:+ b)).
    split; [|done]. apply partition_here, startswith_app.
  - change (String c a +:+ sep +:+ b) with (String c (a +:+ sep +:+ b)).
    cbn [partition]. rewrite Hp.
    destruct (startswith (String c (a +:+ sep +:+ b)) sep).
    + eexists _, _. split; [done|]. done.
    + eexists _, _. split; [done|]. simpl. by rewrite Ascii.eqb_refl.
Qed.

Lemma split_head_prefix (sep s : string) : startswith s (split_head sep s) = true.
Proof.
  unfold split_head. destruct (partition sep s) as [[before after]|] eqn:Hp.
  - by eapply partition_before.
  - apply startswith_refl.
Qed.

Lemma split_head_app (sep a b : string) :
  startswith a (split_head sep (a +:+ sep +:+ b)) = true.
Proof.
  unfold split_head. destruct (partition_app sep a b) as (before & after & -> & ?).
  done.
Qed.


(** ** Selection facts *)

(** Cutting a label built by [format_paper_title] at its first ["] "]
    gives back the shown title, for each status the loader writes. *)
Lemma split1_format (r : Row) :
  assessment_status r ∈ statuses →
  split1 "] " (format_paper_title r) !! 1%nat = Some (shown_title r).
Proof.
  unfold format_paper_title, statuses. generalize (shown_title r) as shown.
  intros shown Hst. set_unfold in Hst.
  destruct Hst as [->|[->|[->|[]]]]; reflexivity.
Qed.

Lemma original_title_format (r : Row) :
  assessment_status r ∈ statuses →
  original_title (format_paper_title r) = inr (title_prefix r).
Proof. intros Hst. unfold original_title. by rewrite split1_format. Qed.

(** A row's title starts with the prefix recovered from its label. *)
Lemma title_prefix_prefix (r : Row) : startswith (title r) (title_prefix r) = true.
Proof.
  unfold title_prefix, shown_title. case_match.
  - eapply startswith_trans; [apply startswith_slice_to|].
    apply (split_head_app "..." _ EmptyString).
  - apply split_head_prefix.
Qed.

Lemma first_startswith_cons (r : Row) (df : Table) (t : string) :
  first_startswith (r :: df) t =
    if startswith (title r) t then inr r else first_startswith df t.
Proof.
  unfold first_startswith. rewrite filter_cons.
  by destruct (startswith (title r) t).
Qed.

(** The row found is the first one whose title has the prefix. *)
Lemma first_startswith_inr (df : Table) (t : string) (r : Row) :
  first_startswith df t = inr r ↔
  ∃ l1 l2, df = l1 ++ r :: l2
    ∧ startswith (title r) t = true
    ∧ ∀ x, x ∈ l1 → startswith (title x) t = false.
Proof.
  induction df as [|x df IH]; [split|].
  - done.
  - intros (l1 & l2 & H & _). by destruct l1.
  - rewrite first_startswith_cons. destruct (startswith (title x) t) eqn:E.
    + split.
      * intros [= ->]. exists [], df. split_and!; [done..|]. by intros ? ?%elem_of_nil.
      * intros ([|y l1] & l2 & H & Hr & Hl1); simplify_eq/=; [done|].
        specialize (Hl1 y ltac:(left)). congruence.
    + rewrite IH. split.
      * intros (l1 & l2 & -> & Hr & Hl1). exists (x :: l1), l2.
        split_and!; [done..|]. intros y [->|?]%elem_of_cons; auto.
      * intros ([|y l1] & l2 & H & Hr & Hl1); simplify_eq/=; [congruence|].
        exists l1, l2. split_and!; [done..|]. intros z ?. apply Hl1. by right.
Qed.


Lemma first_startswith_none (df : Table) (t : string) :
  (∀ r, r ∈ df → startswith (title r) t = false) →
  first_startswith df t = inl IndexError.
Proof.
  induction df as [|x df IH]; intros Hno; [done|].
  rewrite first_startswith_cons, (Hno x) by by left.
  apply IH. intros r ?. apply Hno. by right.
Qed.

(** A label offered by the select box always selects some row of the
    table: the row it was built from matches its own prefix. *)
Lemma select_paper_offered (df : Table) (label : string) :
  (∀ x, x ∈ df → assessment_status x ∈ statuses) →
  label ∈ paper_options df →
  ∃ r, select_paper df label = inr r ∧ r ∈ df.
Proof.
  intros Hst (r0 & -> & Hr0)%list_elem_of_fmap.
  unfold select_paper. rewrite original_title_format by auto.
  pose proof (title_prefix_prefix r0) as Hpre.
  generalize dependent (title_prefix r0). intros t Ht. clear Hst.
  induction df as [|x df IH]; [by apply elem_of_nil in Hr0|].
  rewrite first_startswith_cons. destruct (startswith (title x) t) eqn:E.
  - exists x. split; [done|by left].
  - apply elem_of_cons in Hr0 as [->|Hr0]; [congruence|].
    destruct (IH Hr0) as (r & Hsel & Hin). exists r. split; [done|by right].
Qed.



(** ** The selector *)

(** C1, where the code breaks the roundtrip.  Both tables have
    pairwise distinct first-100-character title prefixes and loader
    statuses.  The label of the second row carries that row's whole
    title, yet lines 218-219 return the first row: the match is by
    prefix, so it also takes the longer title above
    ([nested_titles]), and the cut at ["..."] shortens a title that
    has an ellipsis of its own ([dotted_titles]). *)
Lemma select_format_roundtrip_distinct_prefixes_fails :
  (distinct_prefixes nested_titles
   ∧ (∀ x, x ∈ nested_titles → assessment_status x ∈ statuses)
   ∧ titled 2 "Neural Logic" "Neurosymbolic" ∈ nested_titles
   ∧ select_paper nested_titles
       (format_paper_title (titled 2 "Neural Logic" "Neurosymbolic"))
     = inr (titled 1 "Neural Logic Machines" "Other")
   ∧ select_paper nested_titles
       (format_paper_title (titled 2 "Neural Logic" "Neurosymbolic"))
     ≠ inr (titled 2 "Neural Logic" "Neurosymbolic"))
  ∧ (distinct_prefixes dotted_titles
     ∧ (∀ x, x ∈ dotted_titles → assessment_status x ∈ statuses)
     ∧ titled 2 "Learning... and reasoning" "Other" ∈ dotted_titles
     ∧ select_paper dotted_titles
         (format_paper_title (titled 2 "Learning... and reasoning" "Other"))
       = inr (titled 1 "Learning to reason" "Unassessed")
     ∧ select_paper dotted_titles
         (format_paper_title (titled 2 "Learning... and reasoning" "Other"))
       ≠ inr (titled 2 "Learning... and reasoning" "Other")).
Proof.
  split.
  - split_and!.
    + by apply (bool_decide_unpack _).
    + intros x Hx. unfold nested_titles in Hx. set_unfold in Hx.
      destruct Hx as [->|[->|[]]]; vm_compute; in_list.
    + unfold nested_titles. in_list.
    + by vm_compute.
    + by vm_compute.
  - split_and!.
    + by apply (bool_decide_unpack _).
    + intros x Hx. unfold dotted_titles in Hx. set_unfold in Hx.
      destruct Hx as [->|[->|[]]]; vm_compute; in_list.
    + unfold dotted_titles. in_list.
    + by vm_compute.
    + by vm_compute.
Qed.




(** C7, as amended.  When the label yields a candidate prefix and no
    row's title starts with it, the selection returns no row: the
    positional lookup on the empty match raises Python's [IndexError]
    (the code defines no error class of its own), and the guard of
    line 216 does not skip the selection. *)
Theorem select_paper_no_match (df : Table) (label cand : string) :
  original_title label = inr cand →
  (∀ r, r ∈ df → startswith (title r) cand = false) →
  select_paper df label = inl IndexError
  ∧ papers_view_paper df label = Some (inl IndexError).
Proof.
  intros Hcand Hno.
  assert (Hsel : select_paper df label = inl IndexError).
  { unfold select_paper. rewrite Hcand. by apply first_startswith_none. }
  split; [done|]. unfold papers_view_paper.
  destruct (decide (label = EmptyString)) as [->|]; [done|]. by rewrite Hsel.
Qed.

Lemma select_paper_no_match_witness :
  select_paper mixed_titles "[Other] Answer set programming" = inl IndexError
  ∧ papers_view_paper mixed_titles "[Other] Answer set programming"
    = Some (inl IndexError).
Proof.
  apply (select_paper_no_match _ _ "Answer set programming"); [by vm_compute|].
  intros r Hr. unfold mixed_titles in Hr. set_unfold in Hr.
  destruct Hr as [->|[->|[]]]; by vm_compute.
Defined.

(** C7 as stated fails on the name of the error: with no matching row
    the exception raised is an [IndexError], not a
    [SelectionInconsistent]. *)
Lemma select_paper_no_match_class :
  original_title "[Other] Answer set programming" = inr "Answer set programming"
  ∧ (∀ r, r ∈ mixed_titles →
       startswith (title r) "Answer set programming" = false)
  ∧ ∃ e, select_paper mixed_titles "[Other] Answer set programming" = inl e
         ∧ exn_class e ≠ "SelectionInconsistent".
Proof.
  split_and!; [by vm_compute| |exists IndexError; by vm_compute].
  intros r Hr. unfold mixed_titles in Hr. set_unfold in Hr.
  destruct Hr as [->|[->|[]]]; by vm_compute.
Qed.

(** ** The filter engine *)

Lemma index_if_passes (mask : option (Row → bool)) (df : Table) :
  index_if mask df = filter (λ r, passes mask r) df.
Proof.
  destruct mask as [m|]; simpl; [done|].
  induction df as [|x df IH]; [done|]. by rewrite filter_cons_True, <- IH.
Qed.

(** The four blocks together keep the rows that pass each of them. *)
Lemma apply_filters_keeps (df : Table) (filters : Filters) :
  apply_filters df filters = filter (λ r, keeps filters r) df.
Proof.
  unfold apply_filters. rewrite !index_if_passes, !list_filter_filter.
  apply list_filter_iff. intros r. unfold keeps.
  rewrite !andb_True. tauto.
Qed.

Lemma index_if_sublist (mask : option (Row → bool)) (df : Table) :
  index_if mask df `sublist_of` df.
Proof. destruct mask; simpl; [apply sublist_filter|done]. Qed.

Lemma sublist_filter_mono {A} (P : A → Prop) `{!∀ x, Decision (P x)} (l k : list A) :
  l `sublist_of` k → filter P l `sublist_of` filter P k.
Proof.
  induction 1 as [|x l k _ IH|x l k _ IH]; [done| |].
  - rewrite !filter_cons. case_decide; [by constructor|done].
  - rewrite filter_cons. case_decide; [by constructor|done].
Qed.

(** Two one-entry dicts on different keys act like their union. *)
Lemma keeps_both (d1 d2 : setting) (r : Row) :
  dimension d1 ≠ dimension d2 →
  keeps (both d1 d2) r = keeps (only d1) r && keeps (only d2) r.
Proof.
  intros Hne. unfold keeps.
  destruct d1, d2; try done;
    cbv [both only with_option no_filters years_mask paper_type_mask
         focus_mask development_mask get_years get_paper_type get_focus
         get_development];
    repeat match goal with
      | |- context [passes ?m r] => destruct (passes m r)
      end; done.
Qed.

(** C3.  For two entries on different filter dimensions, filtering by
    one and then by the other gives the same table as filtering once
    by the dict that holds both. *)
Theorem conjunctive_law (T : Table) (d1 d2 : setting) :
  dimension d1 ≠ dimension d2 →
  apply_filters (apply_filters T (only d1)) (only d2)
  = apply_filters T (both d1 d2).
Proof.
  intros Hne. rewrite !apply_filters_keeps, list_filter_filter.
  apply list_filter_iff. intros r.
  rewrite (keeps_both d1 d2 r Hne), andb_True. tauto.
Qed.

Lemma conjunctive_law_witness :
  apply_filters (apply_filters three_papers (only (Years [2021])))
    (only (Development "No"))
  = apply_filters three_papers (both (Years [2021]) (Development "No")).
Proof. apply conjunctive_law. by vm_compute. Defined.

(** C4.  [development = "Yes"] keeps exactly the rows whose flag is
    true, [development = "No"] exactly the rows whose flag is false or
    missing, in table order; a row with a missing flag is kept under
    ["No"]; and every row of the table is in one of the two results
    and in no more than one. *)
Theorem development_partition (df : Table) :
  apply_filters df (only (Development "Yes"))
    = filter (λ r, is_development r = Some true) df
  ∧ apply_filters df (only (Development "No"))
    = filter (λ r, is_development r = Some false ∨ is_development r = None) df
  ∧ (∀ r, r ∈ df → is_development r = None →
       r ∈ apply_filters df (only (Development "No")))
  ∧ apply_filters df (only (Development "Yes"))
      ++ apply_filters df (only (Development "No")) ≡ₚ df
  ∧ (∀ r, r ∈ apply_filters df (only (Development "Yes")) →
       r ∉ apply_filters df (only (Development "No"))).
Proof.
  assert (Hyes : apply_filters df (only (Development "Yes"))
            = filter (λ r, is_development r = Some true) df).
  { change (apply_filters df (only (Development "Yes")))
      with (filter (λ r, cell_eq (is_development r) true) df).
    apply list_filter_iff. intros r.
    by destruct (is_development r) as [[]|]. }
  assert (Hno : apply_filters df (only (Development "No"))
            = filter (λ r, is_development r = Some false ∨ is_development r = None) df).
  { change (apply_filters df (only (Development "No")))
      with (filter (λ r, cell_eq (is_development r) false
                          || isna (is_development r)) df).
    apply list_filter_iff. intros r.
    destruct (is_development r) as [[]|]; simpl; intuition congruence. }
  rewrite Hyes, Hno. split_and!; [done..| | |].
  - intros r ? ?. apply list_elem_of_filter. auto.
  - assert (Hrest : filter (λ r, is_development r = Some false
                                   ∨ is_development r = None) df
                    = filter (λ r, ¬ is_development r = Some true) df).
    { apply list_filter_iff. intros r.
      destruct (is_development r) as [[]|]; intuition congruence. }
    rewrite Hrest. apply filter_app_complement.
  - intros r [Ht _]%list_elem_of_filter [[Hf|Hf] _]%list_elem_of_filter;
      congruence.
Qed.

Lemma development_partition_witness :
  assessed 3 (Some 2021) None None "Unassessed"
    ∈ apply_filters three_papers (only (Development "No")).
Proof.
  destruct (development_partition three_papers) as (_ & _ & Hnull & _).
  apply Hnull; [|done]. unfold three_papers. in_list.
Defined.

Lemma focus_mask_other (v : string) :
  v ≠ EmptyString → v ≠ "All" → v ≠ "Neurosymbolic" →
  focus_mask (only (Focus v))
  = Some (λ r, bool_decide (assessment_status r ∈ ["Unassessed"; "Other"])).
Proof.
  intros H1 H2 H3. unfold focus_mask, str_truthy. simpl.
  apply String.eqb_neq in H1, H2, H3. by rewrite H1, H2, H3.
Qed.

(** C8, as amended.  [focus = "All"], an absent [focus] and the empty
    string all leave the table as it is; [focus = "Neurosymbolic"]
    keeps exactly the rows with status [Neurosymbolic], so never an
    unassessed one; every other non-empty value keeps exactly the rows
    with status [Unassessed] or [Other]. *)
Theorem focus_filter (df : Table) :
  apply_filters df (only (Focus "All")) = df
  ∧ apply_filters df no_filters = df
  ∧ apply_filters df (only (Focus EmptyString)) = df
  ∧ apply_filters df (only (Focus "Neurosymbolic"))
    = filter (λ r, assessment_status r = "Neurosymbolic") df
  ∧ (∀ r, r ∈ apply_filters df (only (Focus "Neurosymbolic")) →
       assessment_status r ≠ "Unassessed")
  ∧ (∀ v, v ≠ EmptyString → v ≠ "All" → v ≠ "Neurosymbolic" →
       apply_filters df (only (Focus v))
       = filter (λ r, assessment_status r = "Unassessed"
                      ∨ assessment_status r = "Other") df).
Proof.
  assert (Hns : apply_filters df (only (Focus "Neurosymbolic"))
            = filter (λ r, assessment_status r = "Neurosymbolic") df).
  { change (apply_filters df (only (Focus "Neurosymbolic")))
      with (filter (λ r, String.eqb (assessment_status r) "Neurosymbolic") df).
    apply list_filter_iff. intros r.
    destruct (String.eqb_spec (assessment_status r) "Neurosymbolic");
      simpl; intuition. }
  split_and!; [done..| |].
  - intros r. rewrite Hns. intros [-> _]%list_elem_of_filter. done.
  - intros v H1 H2 H3. unfold apply_filters.
    rewrite focus_mask_other by done. simpl.
    apply list_filter_iff. intros r.
    rewrite bool_decide_spec, !elem_of_cons, elem_of_nil. tauto.
Qed.

Lemma focus_filter_witness :
  apply_filters three_papers (only (Focus "Unassessed/Other"))
  = filter (λ r, assessment_status r = "Unassessed"
                 ∨ assessment_status r = "Other") three_papers.
Proof.
  destruct (focus_filter three_papers) as (_ & _ & _ & _ & _ & Hother).
  by apply Hother.
Defined.

(** C8 as stated fails at the empty string: it is neither ["All"] nor
    ["Neurosymbolic"], yet the guard skips the block and a row with
    status [Neurosymbolic] is kept. *)
Lemma focus_filter_empty_string_keeps_all :
  apply_filters three_papers (only (Focus EmptyString)) = three_papers
  ∧ apply_filters three_papers (only (Focus EmptyString))
    ≠ filter (λ r, assessment_status r = "Unassessed"
                   ∨ assessment_status r = "Other") three_papers.
Proof. split; by vm_compute. Qed.

(** C9.  A non-empty [years] keeps exactly the rows whose publication
    year is one of the given years, in table order; an empty or absent
    [years] keeps every row; and a table with years 2020, 2021, 2021
    filtered by [years = [2021]] has two rows, both of 2021. *)
Theorem years_filter (df : Table) (ys : list Z) :
  (ys ≠ [] →
     apply_filters df (only (Years ys))
     = filter (λ r, publication_year r ∈ Some <$> ys) df)
  ∧ apply_filters df (only (Years [])) = df
  ∧ apply_filters df no_filters = df
  ∧ (publication_year <$> df = [Some 2020; Some 2021; Some 2021] →
     length (apply_filters df (only (Years [2021]))) = 2%nat
     ∧ ∀ r, r ∈ apply_filters df (only (Years [2021])) →
         publication_year r = Some 2021).
Proof.
  split_and!; [|done..|].
  - intros Hys. destruct ys as [|y ys]; [done|].
    change (apply_filters df (only (Years (y :: ys))))
      with (filter (λ r, isin (publication_year r) (y :: ys)) df).
    apply list_filter_iff. intros r. unfold isin.
    destruct (publication_year r) as [x|].
    + rewrite bool_decide_spec. split.
      * intros ?. apply list_elem_of_fmap. eauto.
      * intros (? & [= ->] & ?)%list_elem_of_fmap. done.
    + split; [done|]. by intros (? & [=] & ?)%list_elem_of_fmap.
  - intros Hdf. destruct df as [|a [|b [|c [|]]]]; try done.
    injection Hdf as Ha Hb Hc.
    change (apply_filters [a; b; c] (only (Years [2021])))
      with (filter (λ r, isin (publication_year r) [2021]) [a; b; c]).
    rewrite !filter_cons, filter_nil, Ha, Hb, Hc. simpl.
    split; [done|].
    intros r [->|[->|[]%elem_of_nil]%elem_of_cons]%elem_of_cons; done.
Qed.

Lemma years_filter_witness :
  length (apply_filters three_papers (only (Years [2021]))) = 2%nat
  ∧ ∀ r, r ∈ apply_filters three_papers (only (Years [2021])) →
      publication_year r = Some 2021.
Proof.
  destruct (years_filter three_papers [2021]) as (_ & _ & _ & Hscen).
  by apply Hscen.
Defined.

(** C10.  Whatever the filters, the result is a subsequence of the
    input table: its rows are rows of the input, unchanged and in the
    same relative order, and no row occurs more often in the result
    than in the input. *)
Theorem apply_filters_sublist (df : Table) (filters : Filters) :
  apply_filters df filters `sublist_of` df
  ∧ (∀ r, r ∈ apply_filters df filters → r ∈ df)
  ∧ (∀ r, length (filter (λ x, x = r) (apply_filters df filters))
          ≤ length (filter (λ x, x = r) df))%nat.
Proof.
  assert (Hsub : apply_filters df filters `sublist_of` df).
  { unfold apply_filters.
    repeat (etrans; [apply index_if_sublist|]). done. }
  split_and!; [done| |].
  - intros r. by apply sublist_subseteq.
  - intros r. by apply sublist_length, sublist_filter_mono.
Qed.

Lemma apply_filters_sublist_witness :
  assessed 2 (Some 2021) (Some "Method") (Some false) "Other" ∈ three_papers.
Proof.
  destruct (apply_filters_sublist three_papers (only (Focus "Other")))
    as (_ & Hin & _).
  apply Hin. vm_compute. in_list.
Defined.

(** ** Frames as objects *)

Lemma new_frame_fresh (t : Table) (σ : store) :
  ∃ l, new_frame t σ = Some (l, <[l := t]> σ) ∧ σ !! l = None.
Proof.
  exists (fresh (dom σ)). split; [done|].
  apply not_elem_of_dom, is_fresh.
Qed.

Lemma frame_copy_fresh (df : nat) (t : Table) (σ : store) :
  σ !! df = Some t →
  ∃ l σ', frame_copy df σ = Some (l, σ')
    ∧ σ' !! l = Some t ∧ σ !! l = None ∧ σ ⊆ σ'.
Proof.
  intros Hdf. destruct (new_frame_fresh t σ) as (l & Hnew & Hl).
  exists l, (<[l := t]> σ). unfold frame_copy, py_bind, read_frame.
  rewrite Hdf, Hnew. split_and!; [done| |done|].
  - apply lookup_insert_eq.
  - by apply insert_subseteq.
Qed.

(** A block either keeps the current object or allocates a new one;
    objects that already exist are not written to. *)
Lemma frame_index_if_fresh (mask : option (Row → bool)) (df : nat)
    (t : Table) (σ : store) :
  σ !! df = Some t →
  ∃ l σ', frame_index_if mask df σ = Some (l, σ')
    ∧ σ' !! l = Some (index_if mask t)
    ∧ (l = df ∨ σ !! l = None) ∧ σ ⊆ σ'.
Proof.
  intros Hdf. destruct mask as [m|]; simpl.
  - destruct (new_frame_fresh (filter (λ r, m r) t) σ) as (l & Hnew & Hl).
    exists l, (<[l := filter (λ r, m r) t]> σ). unfold py_bind, read_frame.
    rewrite Hdf, Hnew. split_and!; [done| |by right|].
    + apply lookup_insert_eq.
    + by apply insert_subseteq.
  - exists df, σ. split_and!; [done|done|by left|done].
Qed.

(** [apply_filters_obj] returns a new object that holds the table
    computed by [apply_filters]; every object of the caller's store,
    the input frame among them, keeps its contents. *)
Lemma apply_filters_obj_spec (df : nat) (t : Table) (filters : Filters)
    (σ : store) :
  σ !! df = Some t →
  ∃ l σ', apply_filters_obj df filters σ = Some (l, σ')
    ∧ σ' !! l = Some (apply_filters t filters)
    ∧ σ !! l = None ∧ σ ⊆ σ'.
Proof.
  intros Hdf. unfold apply_filters_obj, apply_filters.
  destruct (frame_copy_fresh df t σ Hdf) as (l0 & σ0 & E0 & H0 & N0 & S0).
  destruct (frame_index_if_fresh (years_mask filters) l0 _ σ0 H0)
    as (l1 & σ1 & E1 & H1 & N1 & S1).
  destruct (frame_index_if_fresh (paper_type_mask filters) l1 _ σ1 H1)
    as (l2 & σ2 & E2 & H2 & N2 & S2).
  destruct (frame_index_if_fresh (focus_mask filters) l2 _ σ2 H2)
    as (l3 & σ3 & E3 & H3 & N3 & S3).
  destruct (frame_index_if_fresh (development_mask filters) l3 _ σ3 H3)
    as (l4 & σ4 & E4 & H4 & N4 & S4).
  exists l4, σ4. unfold py_bind at 1. rewrite E0.
  unfold py_bind at 1. rewrite E1.
  unfold py_bind at 1. rewrite E2.
  unfold py_bind at 1. rewrite E3.
  unfold py_bind at 1. rewrite E4.
  assert (M1 : σ !! l1 = None).
  { destruct N1 as [->|N1]; [done|]. by eapply lookup_weaken_None. }
  assert (M2 : σ !! l2 = None).
  { destruct N2 as [->|N2]; [done|].
    eapply lookup_weaken_None; [exact N2|]. by etrans. }
  assert (M3 : σ !! l3 = None).
  { destruct N3 as [->|N3]; [done|].
    eapply lookup_weaken_None; [exact N3|]. do 2 (etrans; [|done]). done. }
  assert (M4 : σ !! l4 = None).
  { destruct N4 as [->|N4]; [done|].
    eapply lookup_weaken_None; [exact N4|]. do 3 (etrans; [|done]). done. }
  split_and!; [done..|]. do 4 (etrans; [|done]). done.
Qed.

(** C2.  With the empty dict [apply_filters] returns the input table,
    row for row; the view, which skips the call for an absent or empty
    dict, shows the input table as well; and on frames as objects the
    result is a new frame with the same contents while the caller's
    frame, like every other existing object, is left as it was. *)
Theorem apply_filters_identity (df : Table) :
  apply_filters df no_filters = df
  ∧ papers_view_filtered df None = df
  ∧ papers_view_filtered df (Some no_filters) = df
  ∧ (∀ (σ : store) (l : nat), σ !! l = Some df →
       ∃ l' σ', apply_filters_obj l no_filters σ = Some (l', σ')
         ∧ σ' !! l' = Some df ∧ l' ≠ l ∧ σ' !! l = Some df ∧ σ ⊆ σ').
Proof.
  split_and!; [done..|]. intros σ l Hl.
  destruct (apply_filters_obj_spec l df no_filters σ Hl)
    as (l' & σ' & Hrun & Hres & Hnew & Hsub).
  exists l', σ'. split_and!; [done..| | |done].
  - intros ->. congruence.
  - by eapply lookup_weaken.
Qed.

Lemma apply_filters_identity_witness :
  ∃ l' σ', apply_filters_obj 0%nat no_filters {[ 0%nat := three_papers ]}
           = Some (l', σ')
    ∧ σ' !! l' = Some three_papers ∧ l' ≠ 0%nat
    ∧ σ' !! 0%nat = Some three_papers.
Proof.
  destruct (apply_filters_identity three_papers) as (_ & _ & _ & Hobj).
  destruct (Hobj {[ 0%nat := three_papers ]} 0%nat) as (l' & σ' & H1 & H2 & H3 & H4 & _).
  { apply lookup_singleton_eq. }
  by exists l', σ'.
Defined.

(** ** The loader *)

Lemma elem_of_left_join (ps : list Paper) (asms : list Assessment)
    (p : Paper) (oa : option Assessment) :
  (p, oa) ∈ left_join ps asms ↔
  p ∈ ps ∧
  match oa with
  | Some a => a ∈ asms ∧ a_paper_id a = Some (p_id p)
  | None => ∀ a, a ∈ asms → a_paper_id a ≠ Some (p_id p)
  end.
Proof.
  assert (Hon : ∀ q a, join_on q a ↔ a_paper_id a = Some (p_id q)).
  { intros q a. unfold join_on, cell_eq. destruct (a_paper_id a) as [i|].
    - rewrite bool_decide_spec. split; congruence.
    - done. }
  unfold left_join. rewrite list_elem_of_bind. split.
  - intros (q & Hin & Hq).
    destruct (filter (λ a, join_on q a) asms) as [|a0 ms] eqn:Hms.
    + apply list_elem_of_singleton in Hin as [= -> ->]. split; [done|].
      intros a Ha Hid. apply Hon in Hid.
      by apply (filter_nil_not_elem_of _ _ a Hms).
    + apply list_elem_of_fmap in Hin as (a & [= -> ->] & Ha).
      rewrite <- Hms in Ha. apply list_elem_of_filter in Ha as [Hj Ha].
      split; [done|]. split; [done|]. by apply Hon.
  - intros [Hp Hoa]. exists p. split; [|done].
    destruct (filter (λ a, join_on p a) asms) as [|a0 ms] eqn:Hms.
    + destruct oa as [a|]; [|by left]. destruct Hoa as [Ha Hid].
      assert (a ∈ filter (λ a, join_on p a) asms) as Hf
        by (apply list_elem_of_filter; split; [by apply Hon|done]).
      rewrite Hms in Hf. by apply elem_of_nil in Hf.
    + destruct oa as [a|].
      * destruct Hoa as [Ha Hid]. apply list_elem_of_fmap. exists a.
        split; [done|]. rewrite <- Hms. apply list_elem_of_filter.
        split; [by apply Hon|done].
      * assert (a0 ∈ filter (λ a, join_on p a) asms) as Hf
          by (rewrite Hms; left).
        apply list_elem_of_filter in Hf as [Hj Ha0].
        destruct (Hoa a0 Ha0). by apply Hon.
Qed.

(** The rows of the loaded table are the joined rows; ORDER BY only
    permutes them. *)
Lemma elem_of_load_paper_details (db : Database) (r : Row) :
  r ∈ load_paper_details db ↔
  ∃ p oa, r = select_row (p, oa)
    ∧ (p, oa) ∈ left_join (papers db) (paper_assessments db).
Proof.
  unfold load_paper_details. rewrite merge_sort_Permutation, list_elem_of_fmap.
  split.
  - intros ([p oa] & -> & ?). eauto.
  - intros (p & oa & -> & ?). eauto.
Qed.

(** C5.  Every row of the loaded table belongs to a paper [p] and
    carries either one assessment [a] of that paper or none; its
    status is one of the three literals; it is [Unassessed] exactly
    when no assessment row matches the paper, [Neurosymbolic] exactly
    when the row carries an assessment whose neurosymbolic flag is
    true, and [Other] exactly when it carries an assessment whose
    flag is not true.  With at most one assessment per paper, the row
    is [Neurosymbolic] exactly when such an assessment exists. *)
Theorem status_totality (db : Database) (r : Row) :
  r ∈ load_paper_details db →
  ∃ p oa,
    p ∈ papers db ∧ r = select_row (p, oa)
    ∧ (∀ a, oa = Some a →
         a ∈ paper_assessments db ∧ a_paper_id a = Some (p_id p))
    ∧ assessment_status r ∈ statuses
    ∧ (assessment_status r = "Unassessed" ↔
       ∀ a, a ∈ paper_assessments db → a_paper_id a ≠ Some (p_id p))
    ∧ (assessment_status r = "Neurosymbolic" ↔
       ∃ a, oa = Some a ∧ a_is_neurosymbolic a = Some true)
    ∧ (assessment_status r = "Other" ↔
       ∃ a, oa = Some a ∧ a_is_neurosymbolic a ≠ Some true)
    ∧ ((∀ a a', a ∈ paper_assessments db → a' ∈ paper_assessments db →
          a_paper_id a = Some (p_id p) → a_paper_id a' = Some (p_id p) →
          a = a') →
       (assessment_status r = "Neurosymbolic" ↔
        ∃ a, a ∈ paper_assessments db ∧ a_paper_id a = Some (p_id p)
             ∧ a_is_neurosymbolic a = Some true)).
Proof.
  intros (p & oa & -> & [Hp Hoa]%elem_of_left_join)%elem_of_load_paper_details.
  exists p, oa. split; [done|]. split; [done|].
  destruct oa as [a|].
  - destruct Hoa as [Ha Hid]. simpl. rewrite Hid. unfold case_status. simpl.
    split; [by intros ? [= <-]|].
    destruct (a_is_neurosymbolic a) as [[]|] eqn:Hns; simpl.
    + split_and!.
      * unfold statuses; in_list.
      * split; [done|]. intros H. by destruct (H a Ha).
      * split; [intros _; by exists a|done].
      * split; [done|]. by intros (? & [= <-] & ?).
      * intros _. split; [intros _; by exists a|done].
    + split_and!.
      * unfold statuses; in_list.
      * split; [done|]. intros H. by destruct (H a Ha).
      * split; [done|]. intros (? & [= <-] & ?). congruence.
      * split; [intros _; exists a; split; [done|congruence]|done].
      * intros Huniq. split; [done|]. intros (a' & Ha' & Hid' & Hns').
        rewrite (Huniq a a' Ha Ha' Hid Hid') in Hns. congruence.
    + split_and!.
      * unfold statuses; in_list.
      * split; [done|]. intros H. by destruct (H a Ha).
      * split; [done|]. intros (? & [= <-] & ?). congruence.
      * split; [intros _; exists a; split; [done|congruence]|done].
      * intros Huniq. split; [done|]. intros (a' & Ha' & Hid' & Hns').
        rewrite (Huniq a a' Ha Ha' Hid Hid') in Hns. congruence.
  - simpl. unfold case_status. simpl. split; [done|]. split_and!.
    + unfold statuses; in_list.
    + done.
    + split; [done|]. by intros (? & [=] & _).
    + split; [done|]. by intros (? & [=] & _).
    + intros _. split; [done|]. intros (a & Ha & Hid & _). by destruct (Hoa a Ha).
Qed.

Lemma status_totality_witness :
  ∃ p oa,
    p ∈ papers sample_db
    ∧ select_row (paper 3 "Answer set programming" None, None) = select_row (p, oa)
    ∧ assessment_status (select_row (paper 3 "Answer set programming" None, None))
      ∈ statuses.
Proof.
  destruct (status_totality sample_db
              (select_row (paper 3 "Answer set programming" None, None)))
    as (p & oa & Hp & Hr & _ & Hst & _).
  { vm_compute. in_list. }
  by exists p, oa.
Defined.


(** ** Further properties of the filter engine *)

Lemma paper_type_mask_other (v : string) :
  v ≠ EmptyString → v ≠ "All" →
  paper_type_mask (only (PaperType v))
  = Some (λ r, cell_eq (paper_type r) v && notna (paper_type r)).
Proof.
  intros H1 H2. unfold paper_type_mask, str_truthy. simpl.
  apply String.eqb_neq in H1, H2. by rewrite H1, H2.
Qed.

Lemma apply_filters_paper_type (df : Table) (v : string) :
  v ≠ EmptyString → v ≠ "All" →
  apply_filters df (only (PaperType v))
  = filter (λ r, paper_type r = Some v) df.
Proof.
  intros H1 H2. unfold apply_filters.
  rewrite paper_type_mask_other by done. simpl.
  apply list_filter_iff. intros r. unfold cell_eq.
  destruct (paper_type r) as [t|]; simpl.
  - rewrite andb_true_r, bool_decide_spec. split; congruence.
  - split; [done|congruence].
Qed.

Lemma apply_filters_focus_ns (df : Table) :
  apply_filters df (only (Focus "Neurosymbolic"))
  = filter (λ r, assessment_status r = "Neurosymbolic") df.
Proof.
  change (apply_filters df (only (Focus "Neurosymbolic")))
    with (filter (λ r, String.eqb (assessment_status r) "Neurosymbolic") df).
  apply list_filter_iff. intros r.
  destruct (String.eqb_spec (assessment_status r) "Neurosymbolic");
    simpl; intuition.
Qed.

Lemma apply_filters_focus_rest (df : Table) (v : string) :
  v ≠ EmptyString → v ≠ "All" → v ≠ "Neurosymbolic" →
  apply_filters df (only (Focus v))
  = filter (λ r, assessment_status r = "Unassessed"
                 ∨ assessment_status r = "Other") df.
Proof.
  intros H1 H2 H3. unfold apply_filters.
  rewrite focus_mask_other by done. simpl.
  apply list_filter_iff. intros r.
  rewrite bool_decide_spec, !elem_of_cons, elem_of_nil. tauto.
Qed.

Lemma apply_filters_development_yes (df : Table) :
  apply_filters df (only (Development "Yes"))
  = filter (λ r, is_development r = Some true) df.
Proof.
  change (apply_filters df (only (Development "Yes")))
    with (filter (λ r, cell_eq (is_development r) true) df).
  apply list_filter_iff. intros r. by destruct (is_development r) as [[]|].
Qed.

Lemma apply_filters_development_no (df : Table) :
  apply_filters df (only (Development "No"))
  = filter (λ r, is_development r = Some false ∨ is_development r = None) df.
Proof.
  change (apply_filters df (only (Development "No")))
    with (filter (λ r, cell_eq (is_development r) false
                        || isna (is_development r)) df).
  apply list_filter_iff. intros r.
  destruct (is_development r) as [[]|]; simpl; intuition congruence.
Qed.

(** X1.  [paper_type = "All"] and the empty string leave the table as
    it is; any other value keeps exactly the rows whose paper type is
    that value, so a row with a missing paper type is never kept. *)
Theorem paper_type_filter (df : Table) :
  apply_filters df (only (PaperType "All")) = df
  ∧ apply_filters df (only (PaperType EmptyString)) = df
  ∧ (∀ v, v ≠ EmptyString → v ≠ "All" →
       apply_filters df (only (PaperType v))
       = filter (λ r, paper_type r = Some v) df)
  ∧ (∀ v r, v ≠ EmptyString → v ≠ "All" →
       r ∈ apply_filters df (only (PaperType v)) → paper_type r ≠ None).
Proof.
  split_and!; [done..|apply apply_filters_paper_type|].
  intros v r H1 H2. rewrite apply_filters_paper_type by done.
  intros [Hr _]%list_elem_of_filter. congruence.
Qed.

Lemma paper_type_filter_witness :
  apply_filters three_papers (only (PaperType "Survey"))
  = filter (λ r, paper_type r = Some "Survey") three_papers.
Proof.
  destruct (paper_type_filter three_papers) as (_ & _ & Hv & _).
  by apply Hv.
Defined.

(** X2.  Filtering is idempotent: applying the same filters to an
    already filtered table changes nothing. *)
Theorem apply_filters_idempotent (df : Table) (filters : Filters) :
  apply_filters (apply_filters df filters) filters = apply_filters df filters.
Proof.
  rewrite !apply_filters_keeps, list_filter_filter.
  apply list_filter_iff. tauto.
Qed.

(** X3.  Two filter dicts can be applied in either order, whatever
    keys they hold. *)
Theorem apply_filters_comm (df : Table) (f g : Filters) :
  apply_filters (apply_filters df f) g = apply_filters (apply_filters df g) f.
Proof.
  rewrite !apply_filters_keeps, !list_filter_filter.
  apply list_filter_iff. tauto.
Qed.

(** X4.  Filtering works row by row: the result on two tables put one
    after the other is the two results put one after the other, and a
    row is kept or dropped whatever the rest of the table holds. *)
Theorem apply_filters_app (df1 df2 : Table) (filters : Filters) :
  apply_filters (df1 ++ df2) filters
  = apply_filters df1 filters ++ apply_filters df2 filters.
Proof. rewrite !apply_filters_keeps. apply filter_app. Qed.

(** X5.  A dict whose entries are all neutral (no year listed, the
    other three absent, empty or ["All"]) restricts nothing. *)
Theorem apply_filters_neutral (df : Table) (filters : Filters) :
  get_years filters ∈ [None; Some []] →
  get_paper_type filters ∈ [None; Some EmptyString; Some "All"] →
  get_focus filters ∈ [None; Some EmptyString; Some "All"] →
  get_development filters ∈ [None; Some EmptyString; Some "All"] →
  apply_filters df filters = df
  ∧ papers_view_filtered df (Some filters) = df.
Proof.
  intros Hy Hp Hf Hd.
  assert (H : apply_filters df filters = df).
  { unfold apply_filters, years_mask, paper_type_mask, focus_mask,
      development_mask.
    set_unfold in Hy. set_unfold in Hp. set_unfold in Hf. set_unfold in Hd.
    destruct Hy as [->|[->|[]]], Hp as [->|[->|[->|[]]]],
      Hf as [->|[->|[->|[]]]], Hd as [->|[->|[->|[]]]]; done. }
  split; [done|]. unfold papers_view_filtered. rewrite H. by case_match.
Qed.

Lemma apply_filters_neutral_witness :
  apply_filters three_papers all_filters = three_papers
  ∧ papers_view_filtered three_papers (Some all_filters) = three_papers.
Proof. apply apply_filters_neutral; vm_compute; in_list. Defined.

(** X6.  On frames as objects, for every filter dict: the call
    succeeds whenever the input frame exists, returns an object that
    did not exist before and holds the filtered table, and leaves the
    contents of the input frame and of every other object as they
    were. *)
Theorem apply_filters_obj_pure (df : nat) (t : Table) (filters : Filters)
    (σ : store) :
  σ !! df = Some t →
  ∃ l σ', apply_filters_obj df filters σ = Some (l, σ')
    ∧ σ' !! l = Some (apply_filters t filters)
    ∧ σ !! l = None
    ∧ ∀ k u, σ !! k = Some u → σ' !! k = Some u.
Proof.
  intros Hdf.
  destruct (apply_filters_obj_spec df t filters σ Hdf)
    as (l & σ' & Hrun & Hres & Hnew & Hsub).
  exists l, σ'. split_and!; [done..|].
  intros k u Hk. by eapply lookup_weaken.
Qed.

Lemma apply_filters_obj_pure_witness :
  ∃ l σ', apply_filters_obj 0%nat (only (Years [2021])) {[ 0%nat := three_papers ]}
          = Some (l, σ')
    ∧ σ' !! l = Some (apply_filters three_papers (only (Years [2021])))
    ∧ σ' !! 0%nat = Some three_papers.
Proof.
  destruct (apply_filters_obj_pure 0%nat three_papers (only (Years [2021]))
              {[ 0%nat := three_papers ]})
    as (l & σ' & H1 & H2 & _ & H4); [apply lookup_singleton_eq|].
  exists l, σ'. split_and!; [done..|]. apply H4, lookup_singleton_eq.
Defined.

(** ** Further properties of the loader *)

Lemma cmp_refl {A} (cmp : A → A → comparison) (x : A) :
  cmp_order cmp → cmp x x = Eq.
Proof.
  intros [Ha _ _]. specialize (Ha x x). by destruct (cmp x x).
Qed.

Lemma Z_cmp_order : cmp_order Z.compare.
Proof.
  split.
  - intros x y. apply Z.compare_antisym.
  - intros x y. apply Z.compare_eq.
  - intros x y z. rewrite !Z.compare_lt_iff. lia.
Qed.

Lemma ascii_compare_lt_trans (a b c : ascii) :
  Ascii.compare a b = Lt → Ascii.compare b c = Lt → Ascii.compare a c = Lt.
Proof. unfold Ascii.compare. rewrite !N.compare_lt_iff. lia. Qed.

Lemma ascii_compare_refl (a : ascii) : Ascii.compare a a = Eq.
Proof. unfold Ascii.compare. apply N.compare_refl. Qed.

Lemma string_cmp_order : cmp_order String.compare.
Proof.
  split.
  - apply String.compare_antisym.
  - apply String.compare_eq_iff.
  - intros x. induction x as [|a x IH]; intros [|b y] [|c z]; simpl; try done.
    destruct (Ascii.compare a b) eqn:Hab; [|  |done];
      destruct (Ascii.compare b c) eqn:Hbc; try done.
    + apply Ascii.compare_eq_iff in Hab as ->. rewrite Hbc. apply IH.
    + apply Ascii.compare_eq_iff in Hab as ->. by rewrite Hbc.
    + apply Ascii.compare_eq_iff in Hbc as <-. by rewrite Hab.
    + by rewrite (ascii_compare_lt_trans a b c).
Qed.

(** NULL-aware comparison keeps the order laws. *)
Lemma sql_cmp_order {A} (cmp : A → A → comparison) :
  cmp_order cmp → cmp_order (sql_compare cmp).
Proof.
  intros [Ha He Ht]. split.
  - intros [x|] [y|]; simpl; auto.
  - intros [x|] [y|]; simpl; try done. intros ?. f_equal. auto.
  - intros [x|] [y|] [z|]; simpl; try done. apply Ht.
Qed.

(** "Not greater" is transitive for an order comparison. *)
Lemma cmp_le_trans {A} (cmp : A → A → comparison) (x y z : A) :
  cmp_order cmp → cmp x y ≠ Gt → cmp y z ≠ Gt → cmp x z ≠ Gt.
Proof.
  intros Ho Hxy Hyz. pose proof Ho as [Ha He Ht].
  destruct (cmp x y) eqn:Exy; [| |done].
  - apply He in Exy as ->. done.
  - destruct (cmp y z) eqn:Eyz; [| |done].
    + apply He in Eyz as <-. by rewrite Exy.
    + by rewrite (Ht x y z).
Qed.

(** [order_by_leb r1 r2] says the sort key of [r2] is not above that
    of [r1], keys compared date first, then year. *)
Lemma order_by_leb_spec (r1 r2 : Row) :
  order_by_leb r1 r2 = true ↔
  sql_compare String.compare (assessment_date r2) (assessment_date r1) = Lt
  ∨ (assessment_date r2 = assessment_date r1
     ∧ sql_compare Z.compare (publication_year r2) (publication_year r1) ≠ Gt).
Proof.
  pose proof (sql_cmp_order _ string_cmp_order) as Hs.
  unfold order_by_leb.
  destruct (sql_compare String.compare (assessment_date r2) (assessment_date r1))
    eqn:E.
  - apply (cmp_eq _ Hs) in E. rewrite E.
    destruct (sql_compare Z.compare (publication_year r2) (publication_year r1));
      intuition congruence.
  - intuition.
  - split; [done|]. intros [?|[Heq _]]; [done|].
    rewrite Heq, (cmp_refl _ _ Hs) in E. done.
Qed.

#[global] Instance order_by_total : Total (λ r1 r2 : Row, order_by_leb r1 r2).
Proof.
  pose proof (sql_cmp_order _ string_cmp_order) as Hs.
  pose proof (sql_cmp_order _ Z_cmp_order) as Hz.
  intros r1 r2. rewrite !Is_true_true, !order_by_leb_spec.
  rewrite (cmp_antisym _ Hs (assessment_date r1) (assessment_date r2)).
  rewrite (cmp_antisym _ Hz (publication_year r1) (publication_year r2)).
  destruct (sql_compare String.compare (assessment_date r2) (assessment_date r1))
    eqn:E; simpl; [|by left; left|by right; left].
  apply (cmp_eq _ Hs) in E.
  destruct (sql_compare Z.compare (publication_year r2) (publication_year r1));
    simpl; [left|left|right]; right; done.
Qed.

#[global] Instance order_by_trans : Transitive (λ r1 r2 : Row, order_by_leb r1 r2).
Proof.
  pose proof (sql_cmp_order _ string_cmp_order) as Hs.
  pose proof (sql_cmp_order _ Z_cmp_order) as Hz.
  intros r1 r2 r3. rewrite !Is_true_true, !order_by_leb_spec.
  intros [H21|[E21 Y21]] [H32|[E32 Y32]].
  - left. by apply (cmp_lt_trans _ Hs _ (assessment_date r2)).
  - left. by rewrite E32.
  - left. by rewrite <- E21.
  - right. split; [congruence|].
    by apply (cmp_le_trans _ _ (publication_year r2)).
Qed.

Lemma join_on_spec (p : Paper) (a : Assessment) :
  join_on p a ↔ a_paper_id a = Some (p_id p).
Proof.
  unfold join_on, cell_eq. destruct (a_paper_id a) as [i|]; [|done].
  rewrite bool_decide_spec. split; congruence.
Qed.

Lemma assessments_of_join (db : Database) (p : Paper) :
  assessments_of db p = filter (λ a, join_on p a) (paper_assessments db).
Proof.
  unfold assessments_of. apply list_filter_iff. intros a.
  by rewrite join_on_spec.
Qed.

Lemma load_paper_details_perm (db : Database) :
  load_paper_details db
  ≡ₚ select_row <$> left_join (papers db) (paper_assessments db).
Proof. apply merge_sort_Permutation. Qed.

Lemma left_join_length (ps : list Paper) (asms : list Assessment) :
  length (left_join ps asms)
  = sum_list_with
      (λ p, Nat.max 1 (length (filter (λ a, join_on p a) asms))) ps.
Proof.
  unfold left_join. induction ps as [|p ps IH]; [done|].
  rewrite bind_cons, length_app, IH. simpl. f_equal.
  destruct (filter (λ a, join_on p a) asms) as [|a ms]; [done|].
  simpl. by rewrite ?length_fmap.
Qed.

Lemma left_join_single (ps : list Paper) (asms : list Assessment) :
  (∀ p, p ∈ ps → (length (filter (λ a, join_on p a) asms) ≤ 1)%nat) →
  fst <$> left_join ps asms = ps.
Proof.
  unfold left_join. induction ps as [|p ps IH]; intros Hone; [done|].
  rewrite bind_cons, fmap_app, IH by (intros; apply Hone; by right).
  specialize (Hone p ltac:(left)).
  destruct (filter (λ a, join_on p a) asms) as [|a [|b ms]]; simpl in *;
    [done..|lia].
Qed.

(** X7.  The loaded table is in ORDER BY order: of any two rows, the
    earlier one may precede the later one under the sort key.  In
    particular no row without an assessment date precedes a row with
    one, and two dated rows are in descending date order. *)
Theorem load_paper_details_sorted (db : Database) (l1 l2 : Table)
    (r1 r2 : Row) :
  load_paper_details db = l1 ++ l2 → r1 ∈ l1 → r2 ∈ l2 →
  order_by_leb r1 r2 = true
  ∧ (assessment_date r1 = None → assessment_date r2 = None)
  ∧ (∀ d1 d2, assessment_date r1 = Some d1 → assessment_date r2 = Some d2 →
       String.compare d1 d2 ≠ Lt).
Proof.
  intros Hload H1 H2.
  assert (Hleb : order_by_leb r1 r2 = true).
  { apply Is_true_true.
    apply (StronglySorted_app_1_elem_of
             (λ r1 r2 : Row, order_by_leb r1 r2) l1 l2); [|done..].
    rewrite <- Hload. apply StronglySorted_merge_sort; apply _. }
  split; [done|]. apply order_by_leb_spec in Hleb. split.
  - intros Hn. rewrite Hn in Hleb.
    destruct (assessment_date r2); [|done].
    destruct Hleb as [?|[? _]]; done.
  - intros d1 d2 Hd1 Hd2. rewrite Hd1, Hd2 in Hleb. simpl in Hleb.
    rewrite String.compare_antisym.
    destruct Hleb as [->|[[= ->] _]]; [done|].
    by rewrite (cmp_refl _ _ string_cmp_order).
Qed.

Lemma load_paper_details_sorted_witness :
  order_by_leb (select_row (paper 1 "Neural Logic Machines" (Some 2019),
                            Some (assessment (Some 1) (Some true) (Some true)
                                    (Some "2024-01-01"))))
               (select_row (paper 3 "Answer set programming" None, None))
  = true.
Proof.
  eapply (load_paper_details_sorted sample_db
            [select_row (paper 2 "Learning to reason" (Some 2021),
                         Some (assessment (Some 2) None (Some false)
                                 (Some "2024-02-01")));
             select_row (paper 1 "Neural Logic Machines" (Some 2019),
                         Some (assessment (Some 1) (Some true) (Some true)
                                 (Some "2024-01-01")))]
            [select_row (paper 3 "Answer set programming" None, None)]).
  - by vm_compute.
  - in_list.
  - in_list.
Defined.

(** X8.  The join keeps every paper: each paper of the database has a
    row in the loaded table carrying its own columns, and the table
    has one row per paper with no assessment and one per matching
    assessment otherwise, so never fewer rows than papers. *)
Theorem load_paper_details_complete (db : Database) :
  (∀ p, p ∈ papers db → ∃ oa, select_row (p, oa) ∈ load_paper_details db)
  ∧ length (load_paper_details db)
    = sum_list_with (λ p, Nat.max 1 (length (assessments_of db p))) (papers db)
  ∧ (length (papers db) ≤ length (load_paper_details db))%nat.
Proof.
  assert (Hlen : length (load_paper_details db)
            = sum_list_with (λ p, Nat.max 1 (length (assessments_of db p)))
                (papers db)).
  { rewrite load_paper_details_perm, length_fmap, left_join_length.
    induction (papers db) as [|p ps IH]; [done|]. simpl.
    by rewrite IH, assessments_of_join. }
  split_and!; [|done|].
  - intros p Hp.
    destruct (filter (λ a, join_on p a) (paper_assessments db))
      as [|a ms] eqn:Hms.
    + exists None. apply elem_of_load_paper_details. exists p, None.
      split; [done|]. apply elem_of_left_join. split; [done|].
      intros a Ha Hid%join_on_spec.
      by apply (filter_nil_not_elem_of _ _ a Hms).
    + exists (Some a). apply elem_of_load_paper_details. exists p, (Some a).
      split; [done|]. apply elem_of_left_join. split; [done|].
      assert (a ∈ filter (λ a, join_on p a) (paper_assessments db)) as Hin
        by (rewrite Hms; left).
      apply list_elem_of_filter in Hin as [Hj Hin]. split; [done|].
      by apply join_on_spec.
  - rewrite Hlen. clear Hlen.
    induction (papers db) as [|p ps IH]; [done|].
    cbn [sum_list_with length]. lia.
Qed.

Lemma load_paper_details_complete_witness :
  ∃ oa, select_row (paper 2 "Learning to reason" (Some 2021), oa)
        ∈ load_paper_details sample_db.
Proof.
  destruct (load_paper_details_complete sample_db) as (Hall & _).
  apply Hall. unfold sample_db. simpl. in_list.
Defined.

(** X9.  When no paper has more than one assessment, the loaded table
    has exactly one row per paper: its identifiers are those of the
    papers, each as often as in [papers]. *)
Theorem load_paper_details_one_row_per_paper (db : Database) :
  (∀ p, p ∈ papers db → (length (assessments_of db p) ≤ 1)%nat) →
  id <$> load_paper_details db ≡ₚ p_id <$> papers db
  ∧ length (load_paper_details db) = length (papers db).
Proof.
  intros Hone.
  assert (Hids : id <$> load_paper_details db ≡ₚ p_id <$> papers db).
  { rewrite load_paper_details_perm.
    rewrite <- (left_join_single (papers db) (paper_assessments db)) at 2.
    - rewrite <- !list_fmap_compose. apply reflexive_eq.
      apply list_fmap_ext. by intros _ [p oa] _.
    - intros p Hp. rewrite <- assessments_of_join. by apply Hone. }
  split; [done|].
  by rewrite <- (length_fmap id), Hids, length_fmap.
Qed.

Lemma load_paper_details_one_row_per_paper_witness :
  length (load_paper_details sample_db) = length (papers sample_db).
Proof.
  apply load_paper_details_one_row_per_paper.
  intros p Hp. unfold sample_db in Hp. simpl in Hp. set_unfold in Hp.
  destruct Hp as [->|[->|[->|[]]]]; vm_compute; lia.
Defined.

Lemma filter_ext_elem_of {A} (P Q : A → Prop) `{!∀ x, Decision (P x)}
    `{!∀ x, Decision (Q x)} (l : list A) :
  (∀ x, x ∈ l → P x ↔ Q x) → filter P l = filter Q l.
Proof.
  induction l as [|x l IH]; intros Hext; [done|].
  rewrite !filter_cons, IH by (intros; apply Hext; by right).
  destruct (decide (P x)) as [HP|HP], (decide (Q x)) as [HQ|HQ]; try done.
  - destruct HQ. by apply (Hext x); [left|].
  - destruct HP. by apply (Hext x); [left|].
Qed.

(** How a loaded row's status sits with its assessment cells. *)
Lemma loaded_row_cases (db : Database) (r : Row) :
  r ∈ load_paper_details db →
  (assessment_status r = "Unassessed"
   ∧ is_neurosymbolic r = None ∧ is_development r = None
   ∧ paper_type r = None ∧ summary r = None ∧ takeaways r = None
   ∧ assessment_date r = None)
  ∨ (assessment_status r = "Neurosymbolic" ∧ is_neurosymbolic r = Some true)
  ∨ (assessment_status r = "Other" ∧ is_neurosymbolic r ≠ Some true).
Proof.
  intros (p & oa & -> & [Hp Hoa]%elem_of_left_join)%elem_of_load_paper_details.
  destruct oa as [a|]; [|by left].
  destruct Hoa as [Ha Hid]. right. simpl. rewrite Hid. unfold case_status.
  simpl. destruct (a_is_neurosymbolic a) as [[]|]; simpl; [by left|by right..].
Qed.

(** X10.  In the loaded table the status column agrees with the
    assessment cells of the same row: an [Unassessed] row has all six
    assessment cells missing, and a row is [Neurosymbolic] exactly
    when its neurosymbolic flag is true. *)
Theorem loaded_row_consistent (db : Database) (r : Row) :
  r ∈ load_paper_details db →
  (assessment_status r = "Unassessed" →
     is_neurosymbolic r = None ∧ is_development r = None
     ∧ paper_type r = None ∧ summary r = None ∧ takeaways r = None
     ∧ assessment_date r = None)
  ∧ (assessment_status r = "Neurosymbolic" ↔ is_neurosymbolic r = Some true).
Proof.
  intros [(Hs & H)|[[Hs Hf]|[Hs Hf]]]%loaded_row_cases; rewrite Hs.
  - split; [done|]. destruct H as (-> & _). done.
  - done.
  - split; [done|]. split; [done|]. intros ?. by destruct Hf.
Qed.

Lemma loaded_row_consistent_witness :
  assessment_status (select_row (paper 3 "Answer set programming" None, None))
    = "Neurosymbolic"
  ↔ is_neurosymbolic (select_row (paper 3 "Answer set programming" None, None))
    = Some true.
Proof.
  apply (loaded_row_consistent sample_db). vm_compute. in_list.
Defined.

(** X11.  On a loaded table the focus filter reads the neurosymbolic
    flag: ["Neurosymbolic"] keeps exactly the rows whose flag is true,
    any other restricting value exactly the rows whose flag is not
    true, and the two results together are the whole table. *)
Theorem focus_filter_loaded (db : Database) (v : string) :
  v ≠ EmptyString → v ≠ "All" → v ≠ "Neurosymbolic" →
  apply_filters (load_paper_details db) (only (Focus "Neurosymbolic"))
    = filter (λ r, is_neurosymbolic r = Some true) (load_paper_details db)
  ∧ apply_filters (load_paper_details db) (only (Focus v))
    = filter (λ r, ¬ is_neurosymbolic r = Some true) (load_paper_details db)
  ∧ (apply_filters (load_paper_details db) (only (Focus "Neurosymbolic"))
       ++ apply_filters (load_paper_details db) (only (Focus v)))
    ≡ₚ load_paper_details db.
Proof.
  intros H1 H2 H3.
  assert (E1 : apply_filters (load_paper_details db) (only (Focus "Neurosymbolic"))
    = filter (λ r, is_neurosymbolic r = Some true) (load_paper_details db)).
  { rewrite apply_filters_focus_ns. apply filter_ext_elem_of. intros r Hr.
    apply loaded_row_cases in Hr as [(Hs & Hf & _)|[[Hs Hf]|[Hs Hf]]];
      rewrite Hs, ?Hf; intuition congruence. }
  assert (E2 : apply_filters (load_paper_details db) (only (Focus v))
    = filter (λ r, ¬ is_neurosymbolic r = Some true) (load_paper_details db)).
  { rewrite apply_filters_focus_rest by done. apply filter_ext_elem_of.
    intros r Hr.
    apply loaded_row_cases in Hr as [(Hs & Hf & _)|[[Hs Hf]|[Hs Hf]]];
      rewrite Hs, ?Hf; intuition congruence. }
  split_and!; [done..|]. rewrite E1, E2. apply filter_app_complement.
Qed.

Lemma focus_filter_loaded_witness :
  apply_filters (load_paper_details sample_db) (only (Focus "Unassessed/Other"))
  = filter (λ r, ¬ is_neurosymbolic r = Some true) (load_paper_details sample_db).
Proof.
  destruct (focus_filter_loaded sample_db "Unassessed/Other") as (_ & H & _);
    done.
Defined.

(** X12.  An unassessed paper of a loaded table is kept by
    [development = "No"] and dropped by [development = "Yes"], by
    [focus = "Neurosymbolic"] and by every restricting paper type. *)
Theorem unassessed_under_filters (db : Database) (r : Row) :
  r ∈ load_paper_details db → assessment_status r = "Unassessed" →
  r ∈ apply_filters (load_paper_details db) (only (Development "No"))
  ∧ (r ∉ apply_filters (load_paper_details db) (only (Development "Yes")))
  ∧ (r ∉ apply_filters (load_paper_details db) (only (Focus "Neurosymbolic")))
  ∧ (∀ v, v ≠ EmptyString → v ≠ "All" →
       r ∉ apply_filters (load_paper_details db) (only (PaperType v))).
Proof.
  intros Hr Hs.
  destruct (loaded_row_cases db r Hr) as [(_ & Hns & Hdev & Hty & _)|[[E _]|[E _]]];
    [|congruence..].
  split_and!.
  - rewrite apply_filters_development_no. apply list_elem_of_filter. auto.
  - rewrite apply_filters_development_yes.
    intros [? _]%list_elem_of_filter. congruence.
  - rewrite apply_filters_focus_ns. intros [? _]%list_elem_of_filter. congruence.
  - intros v H1 H2. rewrite apply_filters_paper_type by done.
    intros [? _]%list_elem_of_filter. congruence.
Qed.

Lemma unassessed_under_filters_witness :
  select_row (paper 3 "Answer set programming" None, None)
  ∈ apply_filters (load_paper_details sample_db) (only (Development "No")).
Proof.
  apply unassessed_under_filters; [vm_compute; in_list|done].
Defined.

(** ** Further properties of the selection *)

Lemma length_append (a b : string) :
  String.length (a +:+ b) = (String.length a + String.length b)%nat.
Proof. induction a as [|c a IH]; simpl; [done|]. by rewrite IH. Qed.

Lemma length_shown_title (r : Row) : (String.length (shown_title r) ≤ 103)%nat.
Proof.
  unfold shown_title. destruct (100 <? String.length (title r))%nat eqn:E.
  - apply Nat.ltb_lt in E. rewrite length_append, length_slice_to by lia.
    simpl. lia.
  - apply Nat.ltb_ge in E. lia.
Qed.

(** X13.  Whatever the label, the selection returns a row exactly when
    the label has a ["] "] and some title starts with the text that
    follows it up to the first ["..."]; the row returned is then the
    earliest such row of the table. *)
Theorem select_paper_first_match (df : Table) (label : string) (r : Row) :
  select_paper df label = inr r ↔
  ∃ cand l1 l2,
    original_title label = inr cand
    ∧ df = l1 ++ r :: l2
    ∧ startswith (title r) cand = true
    ∧ ∀ x, x ∈ l1 → startswith (title x) cand = false.
Proof.
  unfold select_paper. destruct (original_title label) as [e|cand]; split.
  - done.
  - by intros (? & ? & ? & ? & _).
  - intros (l1 & l2 & ?)%first_startswith_inr. by exists cand, l1, l2.
  - intros (c & l1 & l2 & [= <-] & ?). apply first_startswith_inr.
    by exists l1, l2.
Qed.

(** X14.  Selecting on a row's own label depends only on the rows
    above it: if none of their titles starts with the row's recovered
    prefix the row itself is returned, and otherwise one of the rows
    above it is returned.  In particular the label of the first row
    always selects the first row. *)
Theorem select_paper_own_label (l1 l2 : Table) (r : Row) :
  assessment_status r ∈ statuses →
  ((∀ x, x ∈ l1 → startswith (title x) (title_prefix r) = false) →
     select_paper (l1 ++ r :: l2) (format_paper_title r) = inr r)
  ∧ ((∃ x, x ∈ l1 ∧ startswith (title x) (title_prefix r) = true) →
     ∃ x, x ∈ l1 ∧ select_paper (l1 ++ r :: l2) (format_paper_title r) = inr x)
  ∧ select_paper (r :: l2) (format_paper_title r) = inr r.
Proof.
  intros Hst. unfold select_paper. rewrite original_title_format by done.
  pose proof (title_prefix_prefix r) as Hr.
  assert (Hnone : (∀ x, x ∈ l1 → startswith (title x) (title_prefix r) = false) →
            first_startswith (l1 ++ r :: l2) (title_prefix r) = inr r).
  { intros Hl1. apply first_startswith_inr. by exists l1, l2. }
  split_and!; [done| |].
  - clear Hnone. induction l1 as [|y l1 IH]; intros (x & Hx & Hm).
    { by apply elem_of_nil in Hx. }
    simpl. rewrite first_startswith_cons.
    destruct (startswith (title y) (title_prefix r)) eqn:E.
    + exists y. split; [by left|done].
    + apply elem_of_cons in Hx as [->|Hx]; [congruence|].
      destruct IH as (z & Hz & Hsel); [by exists x|].
      exists z. split; [by right|done].
  - rewrite first_startswith_cons. by rewrite Hr.
Qed.

Lemma select_paper_own_label_witness :
  select_paper nested_titles
    (format_paper_title (titled 1 "Neural Logic Machines" "Other"))
  = inr (titled 1 "Neural Logic Machines" "Other").
Proof.
  destruct (select_paper_own_label []
              [titled 2 "Neural Logic" "Neurosymbolic"]
              (titled 1 "Neural Logic Machines" "Other")) as (_ & _ & H).
  - vm_compute. in_list.
  - exact H.
Defined.

(** X15.  A label is never empty, so the guard of the selection block
    never skips a label built by [format_paper_title]; and the title
    part of a label is at most 103 characters long, whatever the
    length of the title. *)
Theorem format_paper_title_bounds (df : Table) (r : Row) :
  format_paper_title r ≠ EmptyString
  ∧ papers_view_paper df (format_paper_title r)
    = Some (select_paper df (format_paper_title r))
  ∧ (String.length (shown_title r) ≤ 103)%nat
  ∧ (String.length (format_paper_title r)
     ≤ String.length (assessment_status r) + 106)%nat.
Proof.
  assert (Hne : format_paper_title r ≠ EmptyString) by done.
  split_and!; [done| |apply length_shown_title|].
  - unfold papers_view_paper. by rewrite decide_False.
  - unfold format_paper_title. rewrite !length_append. simpl.
    pose proof (length_shown_title r). lia.
Qed.

(** ** The page *)

Lemma sum_list_with_fmap {A B} (f : B → nat) (g : A → B) (l : list A) :
  sum_list_with f (g <$> l) = sum_list_with (f ∘ g) l.
Proof. induction l as [|x l IH]; simpl; [done|]. f_equal. apply IH. Qed.

Lemma sum_list_with_cons {A} (f : A → nat) (x : A) (l : list A) :
  sum_list_with f (x :: l) = (f x + sum_list_with f l)%nat.
Proof. done. Qed.

Lemma sum_list_with_indicator (x : string) (ks : list string) :
  NoDup ks → x ∈ ks →
  sum_list_with (λ v, if decide (x = v) then 1 else 0)%nat ks = 1%nat.
Proof.
  induction 1 as [|k ks Hk Hnd IH]; intros Hx; [by apply elem_of_nil in Hx|].
  rewrite sum_list_with_cons. destruct (decide (x = k)) as [->|Hne].
  - assert (sum_list_with (λ v, if decide (k = v) then 1 else 0)%nat ks = 0%nat)
      as ->; [|done].
    clear IH Hnd Hx. induction ks as [|y ks IH]; [done|].
    rewrite sum_list_with_cons.
    rewrite decide_False by (intros ->; apply Hk; left).
    apply IH. intros ?. apply Hk. by right.
  - apply elem_of_cons in Hx as [?|Hx]; [done|]. by rewrite IH.
Qed.

(** Counting every key of a duplicate-free cover counts every item. *)
Lemma sum_counts (l ks : list string) :
  NoDup ks → (∀ x, x ∈ l → x ∈ ks) →
  sum_list_with (λ v, length (filter (λ x, x = v) l)) ks = length l.
Proof.
  intros Hnd. induction l as [|x l IH]; intros Hin.
  - clear. induction ks as [|k ks IH]; [done|].
    by rewrite sum_list_with_cons, IH.
  - transitivity
      (sum_list_with (λ v, if decide (x = v) then 1 else 0)%nat ks
       + sum_list_with (λ v, length (filter (λ y, y = v) l)) ks)%nat.
    + clear. induction ks as [|k ks IH]; [done|].
      rewrite !sum_list_with_cons, IH, filter_cons.
      destruct (decide (x = k)); simpl; lia.
    + rewrite sum_list_with_indicator, IH; [done| |done|].
      * intros y ?. apply Hin. by right.
      * apply Hin. by left.
Qed.

Lemma Sorted_weaken {A} (R R' : relation A) (l : list A) :
  (∀ a b, R a b → R' a b) → Sorted R l → Sorted R' l.
Proof.
  intros Himp. induction 1 as [|x l _ IH Hhd]; constructor; [done|].
  destruct Hhd; constructor; auto.
Qed.

Lemma fmap_fst_tagged {A B} (g : A → B) (l : list A) :
  ((λ v, (v, g v)) <$> l).*1 = l.
Proof. induction l as [|k ks IH]; simpl; [done|by f_equal]. Qed.

Lemma value_counts_perm (values : list string) :
  value_counts values
  ≡ₚ (λ v, (v, length (filter (λ x, x = v) values))) <$> remove_dups values.
Proof. apply merge_sort_Permutation. Qed.

#[global] Instance count_order_total :
  Total (λ a b : string * nat, (b.2 <=? a.2)%nat).
Proof.
  intros a b. rewrite !Is_true_true, !Nat.leb_le. lia.
Qed.

(** X16.  [value_counts] lists each distinct value once, with the
    number of times it occurs (so at least one); the counts add up to
    the length of the series, and they come in descending order. *)
Theorem value_counts_spec (values : list string) :
  (∀ v n, (v, n) ∈ value_counts values ↔
     v ∈ values ∧ n = length (filter (λ x, x = v) values))
  ∧ NoDup (value_counts values).*1
  ∧ sum_list_with snd (value_counts values) = length values
  ∧ Sorted (λ a b : string * nat, (b.2 ≤ a.2)%nat) (value_counts values).
Proof.
  split_and!.
  - intros v n. rewrite value_counts_perm, list_elem_of_fmap. split.
    + intros (w & [= -> ->] & Hw). by rewrite elem_of_remove_dups in Hw.
    + intros [Hv ->]. exists v. split; [done|]. by apply elem_of_remove_dups.
  - rewrite value_counts_perm, fmap_fst_tagged. apply NoDup_remove_dups.
  - rewrite value_counts_perm, sum_list_with_fmap. apply sum_counts.
    + apply NoDup_remove_dups.
    + intros x ?. by apply elem_of_remove_dups.
  - eapply Sorted_weaken; [|apply Sorted_merge_sort, _].
    intros a b. simpl. rewrite Is_true_true. apply Nat.leb_le.
Qed.

Lemma loaded_statuses (db : Database) (r : Row) :
  r ∈ load_paper_details db → assessment_status r ∈ statuses.
Proof.
  intros [(-> & _)|[[-> _]|[-> _]]]%loaded_row_cases; unfold statuses; in_list.
Qed.

Lemma papers_view_filtered_sublist (df : Table) (filters : option Filters) :
  papers_view_filtered df filters `sublist_of` df.
Proof.
  unfold papers_view_filtered. destruct filters as [f|]; [|done].
  destruct (dict_truthy f); [|done]. unfold apply_filters.
  repeat (etrans; [apply index_if_sublist|]). done.
Qed.

Lemma papers_view_filtered_falsy (df : Table) (filters : option Filters) :
  filters_truthy filters = false → papers_view_filtered df filters = df.
Proof.
  unfold filters_truthy, papers_view_filtered.
  destruct filters as [f|]; [|done]. by intros ->.
Qed.

Lemma load_paper_details_nil (db : Database) :
  load_paper_details db = [] ↔ papers db = [].
Proof.
  split.
  - intros Hnil. destruct (papers db) as [|p ps] eqn:Hps; [done|].
    assert (length (left_join (papers db) (paper_assessments db)) = 0%nat) as Hl.
    { rewrite <- (length_fmap select_row), <- load_paper_details_perm.
      by rewrite Hnil. }
    rewrite left_join_length, Hps, sum_list_with_cons in Hl. lia.
  - intros Hps. apply Permutation_nil_r. rewrite load_paper_details_perm.
    by rewrite Hps.
Qed.

(** The page is a listing exactly when the loaded and the filtered
    table are both non-empty; its parts are then as computed. *)
Lemma papers_view_listing (db : Database) (filters : option Filters)
    (choice : nat) (info : option (nat * nat)) (options : list string)
    (counts : list (string * nat)) (shown : option (exn + Row)) :
  papers_view (inr db) filters choice = Listing info options counts shown →
  load_paper_details db ≠ []
  ∧ papers_view_filtered (load_paper_details db) filters ≠ []
  ∧ info = (if filters_truthy filters
            then Some (length (papers_view_filtered (load_paper_details db) filters),
                       length (load_paper_details db))
            else None)
  ∧ options = paper_options (papers_view_filtered (load_paper_details db) filters)
  ∧ counts = value_counts
      (assessment_status <$> papers_view_filtered (load_paper_details db) filters)
  ∧ shown = match options !! choice with
            | Some label =>
                papers_view_paper
                  (papers_view_filtered (load_paper_details db) filters) label
            | None => None
            end.
Proof.
  unfold papers_view. case_bool_decide; [done|]. case_bool_decide; [done|].
  intros [= <- <- <- <-]. done.
Qed.

(** X17.  The page reports that no papers were found exactly when the
    [papers] relation is empty, whatever the assessments, the filters
    and the choice. *)
Theorem papers_view_no_papers (db : Database) (filters : option Filters)
    (choice : nat) :
  papers_view (inr db) filters choice = NoPapersFound ↔ papers db = [].
Proof.
  rewrite <- load_paper_details_nil. unfold papers_view.
  case_bool_decide; [done|]. case_bool_decide; done.
Qed.

(** X18.  The no-match warning appears only under filters that are in
    force, on a non-empty database, and the info line next to it
    reads 0 of the number of loaded rows. *)
Theorem papers_view_no_match (db : Database) (filters : option Filters)
    (choice : nat) (info : option (nat * nat)) :
  papers_view (inr db) filters choice = NoPapersMatch info →
  filters_truthy filters = true
  ∧ papers db ≠ []
  ∧ info = Some (0%nat, length (load_paper_details db))
  ∧ ∃ f, filters = Some f ∧ apply_filters (load_paper_details db) f = [].
Proof.
  unfold papers_view. case_bool_decide as Hload; [done|].
  case_bool_decide as Hfilt; [|done]. intros [= <-].
  destruct (filters_truthy filters) eqn:Ht.
  - rewrite Hfilt. split_and!; [done| |done|].
    + by rewrite <- load_paper_details_nil.
    + destruct filters as [f|]; [|done]. exists f. split; [done|].
      unfold papers_view_filtered in Hfilt. simpl in Ht. by rewrite Ht in Hfilt.
  - rewrite papers_view_filtered_falsy in Hfilt by done. done.
Qed.

Lemma papers_view_no_match_witness :
  filters_truthy (Some (only (Years [1999]))) = true
  ∧ papers sample_db ≠ []
  ∧ Some (0%nat, 3%nat) = Some (0%nat, length (load_paper_details sample_db)).
Proof.
  destruct (papers_view_no_match sample_db (Some (only (Years [1999]))) 0
              (Some (0%nat, 3%nat))) as (H1 & H2 & H3 & _); [by vm_compute|].
  done.
Defined.

(** X19.  On a listing every option that can be chosen shows a paper:
    the selection block runs, raises nothing, and hands a row of the
    filtered table, which is a row of the loaded table, to the detail
    view. *)
Theorem papers_view_shows_paper (db : Database) (filters : option Filters)
    (choice : nat) (info : option (nat * nat)) (options : list string)
    (counts : list (string * nat)) (shown : option (exn + Row)) :
  papers_view (inr db) filters choice = Listing info options counts shown →
  (choice < length options)%nat →
  ∃ r, shown = Some (inr r)
    ∧ r ∈ papers_view_filtered (load_paper_details db) filters
    ∧ r ∈ load_paper_details db.
Proof.
  intros (_ & _ & _ & Hopt & _ & ->)%papers_view_listing Hlt.
  destruct (options !! choice) as [label|] eqn:Hlabel;
    [|by apply lookup_ge_None in Hlabel; lia].
  assert (Hin : label ∈ options) by (by eapply list_elem_of_lookup_2).
  pose proof (papers_view_filtered_sublist (load_paper_details db) filters)
    as Hsub%sublist_subseteq.
  rewrite Hopt in Hin.
  destruct (select_paper_offered
              (papers_view_filtered (load_paper_details db) filters) label)
    as (r & Hsel & Hr); [|done|].
  { intros x Hx. by apply (loaded_statuses db), Hsub. }
  exists r. split_and!; [|done|by apply Hsub].
  unfold papers_view_paper. rewrite decide_False; [by rewrite Hsel|].
  intros ->. apply list_elem_of_fmap in Hin as (? & ? & _). done.
Qed.

Lemma papers_view_shows_paper_witness :
  ∃ r, Some (inr (select_row (paper 3 "Answer set programming" None, None)))
       = Some (@inr exn Row r)
    ∧ r ∈ load_paper_details sample_db.
Proof.
  destruct (papers_view_shows_paper sample_db (Some (only (Focus "Other"))) 1
    (Some (2%nat, 3%nat))
    ["[Other] Learning to reason"; "[Unassessed] Answer set programming"]
    [("Other", 1%nat); ("Unassessed", 1%nat)]
    (Some (inr (select_row (paper 3 "Answer set programming" None, None)))))
    as (r & H1 & _ & H3); [by vm_compute|simpl; lia|].
  by exists r.
Defined.

(** X20.  With the select box untouched (choice 0) a listing shows
    the first row of the filtered table, and the first option is that
    row's label. *)
Theorem papers_view_default_choice (db : Database) (filters : option Filters)
    (info : option (nat * nat)) (options : list string)
    (counts : list (string * nat)) (shown : option (exn + Row)) :
  papers_view (inr db) filters 0 = Listing info options counts shown →
  ∃ r rest,
    papers_view_filtered (load_paper_details db) filters = r :: rest
    ∧ options !! 0%nat = Some (format_paper_title r)
    ∧ shown = Some (inr r).
Proof.
  intros (_ & Hne & _ & -> & _ & ->)%papers_view_listing.
  pose proof (papers_view_filtered_sublist (load_paper_details db) filters)
    as Hsub%sublist_subseteq.
  destruct (papers_view_filtered (load_paper_details db) filters)
    as [|r rest] eqn:Hf; [done|].
  exists r, rest. split_and!; [done..|]. simpl.
  unfold papers_view_paper. rewrite decide_False by done. f_equal.
  unfold select_paper. rewrite original_title_format.
  - by rewrite first_startswith_cons, title_prefix_prefix.
  - apply (loaded_statuses db), Hsub. by left.
Qed.

Lemma papers_view_default_choice_witness :
  ∃ r rest,
    papers_view_filtered (load_paper_details sample_db) None = r :: rest
    ∧ shown_title r = "Learning to reason".
Proof.
  destruct (papers_view_default_choice sample_db None None
    ["[Other] Learning to reason"; "[Neurosymbolic] Neural Logic Machines";
     "[Unassessed] Answer set programming"]
    [("Unassessed", 1%nat); ("Other", 1%nat); ("Neurosymbolic", 1%nat)]
    (Some (inr (select_row (paper 2 "Learning to reason" (Some 2021),
                  Some (assessment (Some 2) None (Some false)
                          (Some "2024-02-01")))))))
    as (r & rest & H1 & _ & H3); [by vm_compute|].
  exists r, rest. split; [done|]. by injection H3 as <-.
Defined.

(** X21.  On a listing the info line, when shown, reads the number of
    options of the number of loaded rows, the first never above the
    second; without filters in force every loaded row is offered.
    The status distribution lists only loader statuses, each once and
    with a positive count, and its counts add up to the number of
    options. *)
Theorem papers_view_counts (db : Database) (filters : option Filters)
    (choice : nat) (info : option (nat * nat)) (options : list string)
    (counts : list (string * nat)) (shown : option (exn + Row)) :
  papers_view (inr db) filters choice = Listing info options counts shown →
  (length options ≤ length (load_paper_details db))%nat
  ∧ match info with
    | Some (n, m) =>
        filters_truthy filters = true
        ∧ n = length options ∧ m = length (load_paper_details db)
    | None =>
        filters_truthy filters = false
        ∧ options = paper_options (load_paper_details db)
    end
  ∧ sum_list_with snd counts = length options
  ∧ NoDup counts.*1
  ∧ (length counts ≤ 3)%nat
  ∧ ∀ v n, (v, n) ∈ counts → v ∈ statuses ∧ (1 ≤ n)%nat.
Proof.
  intros (_ & _ & -> & -> & -> & _)%papers_view_listing.
  pose proof (papers_view_filtered_sublist (load_paper_details db) filters)
    as Hsub.
  pose proof (value_counts_perm
                (assessment_status
                   <$> papers_view_filtered (load_paper_details db) filters))
    as Hperm.
  symmetry in Hperm.
  set (fd := papers_view_filtered (load_paper_details db) filters) in *.
  assert (Hkeys : ∀ v n, (v, n) ∈ value_counts (assessment_status <$> fd) →
            v ∈ statuses ∧ (1 ≤ n)%nat).
  { intros v n. rewrite <- Hperm, list_elem_of_fmap.
    intros (w & [= -> ->] & Hw). rewrite elem_of_remove_dups in Hw.
    split.
    - apply list_elem_of_fmap in Hw as (r & -> & Hr).
      apply (loaded_statuses db). by apply (sublist_subseteq _ _ Hsub).
    - apply list_elem_of_fmap in Hw as (r & -> & Hr).
      assert (assessment_status r
                ∈ filter (λ x, x = assessment_status r) (assessment_status <$> fd))
        as Hin.
      { apply list_elem_of_filter. split; [done|].
        apply list_elem_of_fmap. eauto. }
      revert Hin. generalize (filter (λ x, x = assessment_status r)
                                (assessment_status <$> fd)).
      intros [|y l] Hin; [by apply elem_of_nil in Hin|simpl; lia]. }
  assert (Hnd : NoDup (value_counts (assessment_status <$> fd)).*1).
  { rewrite <- Hperm, fmap_fst_tagged. apply NoDup_remove_dups. }
  unfold paper_options. rewrite length_fmap. split_and!.
  - by apply sublist_length.
  - destruct (filters_truthy filters) eqn:Ht; [done|].
    split; [done|]. unfold fd. by rewrite papers_view_filtered_falsy.
  - rewrite <- Hperm, sum_list_with_fmap.
    rewrite <- (length_fmap assessment_status fd).
    apply sum_counts; [apply NoDup_remove_dups|].
    intros x ?. by apply elem_of_remove_dups.
  - done.
  - rewrite <- (length_fmap fst).
    change 3%nat with (length statuses).
    apply submseteq_length, NoDup_submseteq; [done|].
    intros v [[w n] [-> Hin]]%list_elem_of_fmap. by apply (Hkeys w n).
  - done.
Qed.

Lemma papers_view_counts_witness :
  sum_list_with snd [("Other", 1%nat); ("Unassessed", 1%nat)] = 2%nat.
Proof.
  destruct (papers_view_counts sample_db (Some (only (Focus "Other"))) 1
    (Some (2%nat, 3%nat))
    ["[Other] Learning to reason"; "[Unassessed] Answer set programming"]
    [("Other", 1%nat); ("Unassessed", 1%nat)]
    (Some (inr (select_row (paper 3 "Answer set programming" None, None)))))
    as (_ & _ & H & _); [by vm_compute|].
  exact H.
Defined.
